(** * AlgoTrading platform: order routing, market-data dispatch, session control

    A shallow embedding of the core of [src/app.py]: the process-global
    [trading_state] dictionary, [TradingContext.place_order],
    [TradingContext.get_market_data], the feed callback [on_tick],
    [StrategyRunner], [log_message] and the three routes
    [upload_strategy], [start_trading], [stop_trading].

    Conventions of the embedding.
    - Python numbers that carry prices and clock readings are rationals
      ([Q]); [x / 100] is rational division and numeric comparison is
      [Qeq].  Quantities and volumes are integers ([Z]).
    - [datetime.now()] is a read of an explicit wall clock: the world
      carries the sequence of readings (seconds since the epoch) and the
      number of reads made so far.  A timestamp is stored as the reading
      itself rather than as its formatted text.
    - [socketio.emit] appends to the list of emitted events.
    - A raised Python exception is an outcome of the monad [M] carrying
      [str(e)]: [Exc] for an instance of [Exception], which
      [except Exception] catches, and [Exit] for any other
      [BaseException] ([SystemExit], [KeyboardInterrupt]), which only a
      bare [except:] catches.
    - The broker SDK, the feed socket and the uploaded strategy file are
      external; each is represented by the outcomes of the calls the
      program makes on it. *)

From Stdlib Require Import ZArith QArith String List Bool Lia.
From Stdlib Require Import DecimalString DecimalPos DecimalZ.
From stdpp Require Import gmap strings list fin_maps.

Local Open Scope string_scope.
Local Open Scope Z_scope.

(** ** Values *)

(** [str(n)] for a Python integer. *)
Definition str_int (n : Z) : string := NilZero.string_of_int (Z.to_int n).

(** [int(x)] for a Python float: truncation towards zero. *)
Definition int_of (x : Q) : Z := Z.quot (Qnum x) (Zpos (Qden x)).

(** Truth value of a number: zero is false. *)
Definition truthy (x : Q) : bool := negb (Qeq_bool x 0).

(** [s.endswith(suffix)]. *)
Definition endswith (s suffix : string) : bool :=
  let n := String.length s in
  let m := String.length suffix in
  (m <=? n)%nat && String.eqb (substring (n - m) m s) suffix.

(** ** Data model *)

(** A value of [trading_state['market_data']]: the dictionary literal
    written by [on_tick], with its three keys. *)
Record quote := {
  ltp : Q;
  volume : Z;
  q_timestamp : Q
}.

(** One element of a tick batch.  [on_tick] reads it with [.get] and a
    default, so each key may be absent; [TokMalformed] is an element that
    is not a dictionary, on which [.get] raises. *)
Inductive token_data :=
| Tok (name : option string) (last_traded_price : option Q)
      (volume_trade_for_the_day : option Z)
| TokMalformed.

Inductive order_status := PENDING | EXECUTED | FAILED.

(** The [order_data] dictionary of [place_order].  The keys [order_id],
    [status] and [executed_price] are only set on some paths; an absent key
    is [None]. *)
Record order_data := {
  symbol : string;
  quantity : Z;
  side : string;
  order_type : string;
  price : option Q;
  timestamp : Q;
  o_mode : string;
  order_id : option string;
  status : option order_status;
  executed_price : option Q
}.

Definition set_order_id (v : string) (o : order_data) : order_data :=
  {| symbol := symbol o; quantity := quantity o; side := side o;
     order_type := order_type o; price := price o; timestamp := timestamp o;
     o_mode := o_mode o; order_id := Some v; status := status o;
     executed_price := executed_price o |}.

Definition set_status (v : order_status) (o : order_data) : order_data :=
  {| symbol := symbol o; quantity := quantity o; side := side o;
     order_type := order_type o; price := price o; timestamp := timestamp o;
     o_mode := o_mode o; order_id := order_id o; status := Some v;
     executed_price := executed_price o |}.

Definition set_executed_price (v : Q) (o : order_data) : order_data :=
  {| symbol := symbol o; quantity := quantity o; side := side o;
     order_type := order_type o; price := price o; timestamp := timestamp o;
     o_mode := o_mode o; order_id := order_id o; status := status o;
     executed_price := Some v |}.

(** Events pushed to the dashboard with [socketio.emit]. *)
Inductive event :=
| EvLog (at_time : Q) (message : string) (level : string)
| EvOrderUpdate (o : order_data)
| EvMarketData (snapshot : gmap string quote).

(** Outcome of a computation that may raise: a value, an [Exception], or
    a [BaseException] that is not an [Exception]. *)
Inductive res (A : Type) :=
| Ok (a : A)
| Exc (msg : string)
| Exit (msg : string).
Arguments Ok {A} a.
Arguments Exc {A} msg.
Arguments Exit {A} msg.

(** ** Strategies *)

(** What one run of a user callback does, seen from the host.  It calls
    the methods [context.place_order] and [context.get_market_data]; it
    may also reach the shared objects themselves, because
    [TradingContext.__init__] stores the very list and dictionary of
    [trading_state] in [context.orders] and [context.market_data],
    [get_market_data] returns the stored quote and [place_order] returns
    the dictionary it has appended: [CtxReadOrders] reads the log,
    [CtxWriteOrders] rewrites it in place (records added, removed or
    altered), [CtxWriteQuotes] rewrites the quotes in place.  The callback
    ends by returning, by raising an [Exception] ([Raise]) or by raising
    another [BaseException] such as [SystemExit] ([RaiseExit]).  [g] is the
    state the strategy module keeps in its own globals when the callback
    ends.  (Quotes and records written by a callback keep the keys the
    host writes; [trading_state['positions']], which the host never reads
    or writes, is left out.) *)
Inductive prog (mem : Type) :=
| Return (g : mem)
| Raise (g : mem) (msg : string)
| RaiseExit (g : mem) (msg : string)
| CtxPlaceOrder (sym : string) (qty : Z) (sd : string) (otype : string)
                (prc : option Q) (k : order_data -> prog mem)
| CtxGetMarketData (sym : string) (k : option quote -> prog mem)
| CtxReadOrders (k : list order_data -> prog mem)
| CtxWriteOrders (f : list order_data -> list order_data) (k : prog mem)
| CtxWriteQuotes (f : gmap string quote -> gmap string quote) (k : prog mem).
Arguments Return {mem} g.
Arguments Raise {mem} g msg.
Arguments RaiseExit {mem} g msg.
Arguments CtxPlaceOrder {mem} sym qty sd otype prc k.
Arguments CtxGetMarketData {mem} sym k.
Arguments CtxReadOrders {mem} k.
Arguments CtxWriteOrders {mem} f k.
Arguments CtxWriteQuotes {mem} f k.

(** How a run of a callback ends. *)
Inductive callback_end :=
| Returned
| Raised (msg : string)
| Exited (msg : string).

(** The module object loaded from a strategy file: its globals and the
    callbacks it defines ([hasattr] is [Some]). *)
Record strategy_module := {
  mem : Type;
  globals : mem;
  m_initialize : option (mem -> prog mem);
  m_on_tick : option (mem -> list token_data -> prog mem);
  m_on_order_update : option (mem -> order_data -> prog mem)
}.

Definition set_globals (md : strategy_module) (g : mem md) : strategy_module :=
  {| mem := mem md; globals := g; m_initialize := m_initialize md;
     m_on_tick := m_on_tick md; m_on_order_update := m_on_order_update md |}.

Record StrategyRunner := {
  strategy_path : string;
  strategy_module_of : strategy_module
}.

(** ** External collaborators *)

Inductive dhan_side := DHAN_BUY | DHAN_SELL.
Inductive dhan_order_type := DHAN_MARKET | DHAN_LIMIT.

Record dhan_request := {
  security_id : string;
  transaction_type : dhan_side;
  dhan_quantity : Z;
  dhan_type : dhan_order_type;
  dhan_price : option Q
}.

(** The outcome of [response['data']['orderId']]: the id, or the
    [KeyError] or [TypeError] of a response that has no such entry. *)
Inductive orderId_lookup :=
| OrderId (oid : string)
| NoOrderId (msg : string).

(** What [dhan_client.place_order] does: it raises (the SDK's failures are
    [Exception]s), or it returns a response.  [response_repr] is the text
    of the response. *)
Inductive dhan_outcome :=
| DhanRaises (msg : string)
| DhanResponse (response_repr : string) (data_orderId : orderId_lookup).

Record DhanClient := {
  dhan_place_order : dhan_request -> dhan_outcome
}.

(** The feed socket: the outcome of [connect()] and of
    [close_connection()]. *)
Record WsClient := {
  ws_connect : res unit;
  ws_close_connection : res unit
}.

(** ** The world *)

(** The [trading_state] dictionary (the keys the core reads or writes). *)
Record trading_state_t := {
  mode : string;
  is_running : bool;
  orders : list order_data;
  market_data : gmap string quote;
  strategy : option StrategyRunner
}.

Record world := {
  trading_state : trading_state_t;
  dhan_client : option DhanClient;
  DHAN_AVAILABLE : bool;
  ws_client : option WsClient;
  emitted : list event;
  wall_clock : nat -> Q;
  clock_reads : nat
}.

Definition with_state (f : trading_state_t -> trading_state_t) (w : world) : world :=
  {| trading_state := f (trading_state w); dhan_client := dhan_client w;
     DHAN_AVAILABLE := DHAN_AVAILABLE w; ws_client := ws_client w;
     emitted := emitted w; wall_clock := wall_clock w;
     clock_reads := clock_reads w |}.

Definition set_mode (v : string) (s : trading_state_t) : trading_state_t :=
  {| mode := v; is_running := is_running s; orders := orders s;
     market_data := market_data s; strategy := strategy s |}.

Definition set_is_running (v : bool) (s : trading_state_t) : trading_state_t :=
  {| mode := mode s; is_running := v; orders := orders s;
     market_data := market_data s; strategy := strategy s |}.

Definition append_order (o : order_data) (s : trading_state_t) : trading_state_t :=
  {| mode := mode s; is_running := is_running s; orders := orders s ++ [o];
     market_data := market_data s; strategy := strategy s |}.

Definition store_quote (k : string) (q : quote) (s : trading_state_t) : trading_state_t :=
  {| mode := mode s; is_running := is_running s; orders := orders s;
     market_data := <[k := q]> (market_data s); strategy := strategy s |}.

Definition write_orders (f : list order_data -> list order_data)
    (s : trading_state_t) : trading_state_t :=
  {| mode := mode s; is_running := is_running s; orders := f (orders s);
     market_data := market_data s; strategy := strategy s |}.

Definition write_quotes (f : gmap string quote -> gmap string quote)
    (s : trading_state_t) : trading_state_t :=
  {| mode := mode s; is_running := is_running s; orders := orders s;
     market_data := f (market_data s); strategy := strategy s |}.

Definition set_strategy (v : option StrategyRunner) (s : trading_state_t) : trading_state_t :=
  {| mode := mode s; is_running := is_running s; orders := orders s;
     market_data := market_data s; strategy := v |}.

(** The module-level initial values. *)
Definition initial_state : trading_state_t :=
  {| mode := "paper"; is_running := false; orders := [];
     market_data := ∅; strategy := None |}.

(** ** The monad of the host: state and exceptions *)

Definition M (A : Type) : Type := world -> res A * world.

Definition ret {A} (a : A) : M A := fun w => (Ok a, w).

Definition raise {A} (msg : string) : M A := fun w => (Exc msg, w).

Definition raise_exit {A} (msg : string) : M A := fun w => (Exit msg, w).

Definition bind {A B} (m : M A) (k : A -> M B) : M B :=
  fun w => match m w with
           | (Ok a, w') => k a w'
           | (Exc e, w') => (Exc e, w')
           | (Exit e, w') => (Exit e, w')
           end.

(** [try: body except Exception as e: handler]. *)
Definition try_except {A} (body : M A) (handler : string -> M A) : M A :=
  fun w => match body w with
           | (Ok a, w') => (Ok a, w')
           | (Exc e, w') => handler e w'
           | (Exit e, w') => (Exit e, w')
           end.

(** [try: body except: handler], the bare clause that catches every
    [BaseException]. *)
Definition try_except_all {A} (body : M A) (handler : M A) : M A :=
  fun w => match body w with
           | (Ok a, w') => (Ok a, w')
           | (Exc _, w') => handler w'
           | (Exit _, w') => handler w'
           end.

Definition get_state : M trading_state_t := fun w => (Ok (trading_state w), w).

Definition modify_state (f : trading_state_t -> trading_state_t) : M unit :=
  fun w => (Ok tt, with_state f w).

Definition lift_res {A} (r : res A) : M A := fun w => (r, w).

Declare Scope host_scope.
Delimit Scope host_scope with host.
Notation "'do' x <- m ; k" := (bind m (fun x => k))
  (at level 10, x name, m at level 100, k at level 200) : host_scope.
Local Open Scope host_scope.

(** [datetime.now()]. *)
Definition now : M Q :=
  fun w => (Ok (wall_clock w (clock_reads w)),
            {| trading_state := trading_state w; dhan_client := dhan_client w;
               DHAN_AVAILABLE := DHAN_AVAILABLE w; ws_client := ws_client w;
               emitted := emitted w; wall_clock := wall_clock w;
               clock_reads := S (clock_reads w) |}).

(** [socketio.emit]. *)
Definition emit (e : event) : M unit :=
  fun w => (Ok tt,
            {| trading_state := trading_state w; dhan_client := dhan_client w;
               DHAN_AVAILABLE := DHAN_AVAILABLE w; ws_client := ws_client w;
               emitted := emitted w ++ [e]; wall_clock := wall_clock w;
               clock_reads := clock_reads w |}).

(** [log_message(message, level)]. *)
Definition log_message (message : string) (level : string) : M unit :=
  do t <- now;
  emit (EvLog t message level).

Definition get_world : M world := fun w => (Ok w, w).

(** ** OrderRouter: [TradingContext.place_order] *)

(** The keyword arguments of [dhan_client.place_order]. *)
Definition dhan_request_of (sym : string) (qty : Z) (sd otype : string)
    (prc : option Q) : dhan_request :=
  {| security_id := sym;
     transaction_type := if String.eqb sd "BUY" then DHAN_BUY else DHAN_SELL;
     dhan_quantity := qty;
     dhan_type := if String.eqb otype "MARKET" then DHAN_MARKET else DHAN_LIMIT;
     dhan_price := if String.eqb otype "LIMIT" then prc else Some 0%Q |}.

(** [dhan_client.place_order(...)] followed by
    [response['data']['orderId']]: the text of the response and the id. *)
Definition dhan_call (c : DhanClient) (rq : dhan_request) : M (string * string) :=
  match dhan_place_order c rq with
  | DhanRaises msg => raise msg
  | DhanResponse repr (OrderId oid) => ret (repr, oid)
  | DhanResponse _ (NoOrderId msg) => raise msg
  end.

(** [price if price else 0]. *)
Definition price_or_zero (prc : option Q) : Q :=
  match prc with
  | Some p => if truthy p then p else 0%Q
  | None => 0%Q
  end.

(** The live branch is taken when
    [trading_state['mode'] == 'live' and dhan_client and DHAN_AVAILABLE]. *)
Definition live_client (w : world) : option DhanClient :=
  if String.eqb (mode (trading_state w)) "live" then
    match dhan_client w with
    | Some c => if DHAN_AVAILABLE w then Some c else None
    | None => None
    end
  else None.

Definition place_order (sym : string) (qty : Z) (sd : string) (otype : string)
    (prc : option Q) : M order_data :=
  do t <- now;
  do w <- get_world;
  let order_data0 :=
    {| symbol := sym; quantity := qty; side := sd; order_type := otype;
       price := prc; timestamp := t; o_mode := mode (trading_state w);
       order_id := None; status := None; executed_price := None |} in
  do order_data1 <-
    match live_client w with
    | Some c =>
        try_except
          (do response <- dhan_call c (dhan_request_of sym qty sd otype prc);
           do _ <- log_message ("Live order placed: " ++ fst response) "success";
           ret (set_status PENDING (set_order_id (snd response) order_data0)))
          (fun e =>
             do _ <- log_message ("Order failed: " ++ e) "error";
             ret (set_status FAILED order_data0))
    | None =>
        if String.eqb (mode (trading_state w)) "paper" then
          do t' <- now;
          let o := set_status EXECUTED
                     (set_order_id ("PAPER_" ++ str_int (int_of t')) order_data0) in
          let o' :=
            match market_data (trading_state w) !! sym with
            | Some q => set_executed_price (ltp q) o
            | None => set_executed_price (price_or_zero prc) o
            end in
          do _ <- log_message
                    ("Paper order: " ++ sd ++ " " ++ str_int qty ++ " " ++ sym)
                    "info";
          ret o'
        else ret order_data0
    end;
  do _ <- modify_state (append_order order_data1);
  do _ <- emit (EvOrderUpdate order_data1);
  ret order_data1.

(** ** MarketDataStore *)

(** [TradingContext.get_market_data]: [self.market_data] is the dictionary
    object held by [trading_state], so the lookup sees every write of
    [on_tick].  The empty dictionary returned for an unknown symbol is
    [None]. *)
Definition get_market_data (sym : string) : M (option quote) :=
  do s <- get_state;
  ret (market_data s !! sym).

(** The loop of [on_tick] over the batch. *)
Fixpoint store_ticks (tick : list token_data) : M unit :=
  match tick with
  | [] => ret tt
  | Tok nm lp vol :: rest =>
      do t <- now;
      do _ <- modify_state
                (store_quote (default "" nm)
                   {| ltp := (default 0 lp / 100)%Q;
                      volume := default 0 vol;
                      q_timestamp := t |});
      store_ticks rest
  | TokMalformed :: _ => raise "object has no attribute 'get'"
  end.

(** ** StrategyHost: [StrategyRunner] *)

(** Runs a callback against the context.  The result is the module's
    globals at the end and the way the callback ended. *)
Fixpoint run_prog {mem : Type} (p : prog mem) : M (mem * callback_end) :=
  match p with
  | Return g => ret (g, Returned)
  | Raise g msg => ret (g, Raised msg)
  | RaiseExit g msg => ret (g, Exited msg)
  | CtxPlaceOrder sym qty sd otype prc k =>
      do o <- place_order sym qty sd otype prc;
      run_prog (k o)
  | CtxGetMarketData sym k =>
      do q <- get_market_data sym;
      run_prog (k q)
  | CtxReadOrders k =>
      do s <- get_state;
      run_prog (k (orders s))
  | CtxWriteOrders f k =>
      do _ <- modify_state (write_orders f);
      run_prog k
  | CtxWriteQuotes f k =>
      do _ <- modify_state (write_quotes f);
      run_prog k
  end.

(** A call into the module of [self]: the callback body runs, the module
    keeps its globals, and an exception propagates to the caller. *)
Definition call_module (self : StrategyRunner)
    (p : prog (mem (strategy_module_of self))) : M unit :=
  do r <- run_prog p;
  do _ <- modify_state
            (set_strategy
               (Some {| strategy_path := strategy_path self;
                        strategy_module_of :=
                          set_globals (strategy_module_of self) (fst r) |}));
  match snd r with
  | Returned => ret tt
  | Raised msg => raise msg
  | Exited msg => raise_exit msg
  end.

Definition StrategyRunner_initialize (self : StrategyRunner) : M unit :=
  match m_initialize (strategy_module_of self) with
  | Some f => call_module self (f (globals (strategy_module_of self)))
  | None => ret tt
  end.

Definition StrategyRunner_on_tick (self : StrategyRunner)
    (tick : list token_data) : M unit :=
  match m_on_tick (strategy_module_of self) with
  | Some f => call_module self (f (globals (strategy_module_of self)) tick)
  | None => ret tt
  end.

Definition StrategyRunner_on_order_update (self : StrategyRunner)
    (o : order_data) : M unit :=
  match m_on_order_update (strategy_module_of self) with
  | Some f => call_module self (f (globals (strategy_module_of self)) o)
  | None => ret tt
  end.

(** ** The feed callback [on_tick] *)

Definition on_tick (tick : list token_data) : M unit :=
  try_except
    (do _ <- store_ticks tick;
     do s <- get_state;
     do _ <- (if is_running s then
                match strategy s with
                | Some sr => StrategyRunner_on_tick sr tick
                | None => ret tt
                end
              else ret tt);
     do s' <- get_state;
     emit (EvMarketData (market_data s')))
    (fun e => log_message ("Tick error: " ++ e) "error").

(** ** SessionController: the routes *)

(** The JSON answer of a route: [jsonify(...)] with status 200, or with
    status 400 and a message. *)
Inductive response :=
| Success
| SuccessFile (filename : string)
| Error400 (message : string).

(** The file of an upload request: its name, and what saving it and
    executing it as a module gives ([StrategyRunner(strategy_path)]). *)
Record uploaded_file := {
  filename : string;
  exec_module : res strategy_module
}.

(** [os.path.join(a, b)] on POSIX for a directory name [a] without a
    trailing slash: an absolute [b] replaces [a]. *)
Definition os_path_join (a b : string) : string :=
  if String.prefix "/" b then b else a ++ "/" ++ b.

Definition upload_strategy (file : option uploaded_file) : M response :=
  match file with
  | None => ret (Error400 "No file provided")
  | Some f =>
      if negb (endswith (filename f) ".py") then
        ret (Error400 "Invalid Python file")
      else
        try_except
          (do md <- lift_res (exec_module f);
           do _ <- modify_state
                     (set_strategy
                        (Some {| strategy_path :=
                                   os_path_join "strategies" (filename f);
                                 strategy_module_of := md |}));
           do _ <- log_message ("Strategy loaded: " ++ filename f) "success";
           ret (SuccessFile (filename f)))
          (fun e =>
             do _ <- log_message ("Strategy load failed: " ++ e) "error";
             ret (Error400 e))
  end.

(** [start_trading] for a request whose body is a JSON object:
    [data_mode] is the value of its [mode] key, a string, or [None] when
    the key is missing (then [data.get('mode', 'paper')] is ['paper']).
    Bodies that are not objects, on which [data.get] raises before
    anything is stored, and modes that are not strings are outside this
    embedding. *)
Definition start_trading (data_mode : option string) : M response :=
  do _ <- modify_state (set_mode (default "paper" data_mode));
  do s <- get_state;
  match strategy s with
  | None => ret (Error400 "No strategy loaded")
  | Some _ =>
      if is_running s then ret (Error400 "Already running")
      else
        try_except
          (do _ <- modify_state (set_is_running true);
           do s1 <- get_state;
           do _ <- match strategy s1 with
                   | Some sr => StrategyRunner_initialize sr
                   | None => raise "'NoneType' object has no attribute 'initialize'"
                   end;
           do w <- get_world;
           do _ <- match ws_client w with
                   | Some c =>
                       if negb (String.eqb (mode (trading_state w)) "backtest")
                       then lift_res (ws_connect c)
                       else ret tt
                   | None => ret tt
                   end;
           do _ <- log_message
                     ("Trading started in " ++ mode (trading_state w) ++ " mode")
                     "success";
           ret Success)
          (fun e =>
             do _ <- modify_state (set_is_running false);
             do _ <- log_message ("Start failed: " ++ e) "error";
             ret (Error400 e))
  end.

Definition stop_trading : M response :=
  do _ <- modify_state (set_is_running false);
  do w <- get_world;
  do _ <- match ws_client w with
          | Some c => try_except_all (lift_res (ws_close_connection c)) (ret tt)
          | None => ret tt
          end;
  do _ <- log_message "Trading stopped" "warning";
  ret Success.

(** ** Vocabulary of the statements *)

(** The world after a computation. *)
Definition exec {A} (m : M A) (w : world) : world := snd (m w).

(** What a computation returns or raises. *)
Definition result {A} (m : M A) (w : world) : res A := fst (m w).

Definition is_order_update (e : event) : bool :=
  match e with
  | EvOrderUpdate _ => true
  | _ => false
  end.

(** Number of [order_update] events in a list of emitted events. *)
Definition count_order_updates (evs : list event) : nat :=
  List.length (List.filter is_order_update evs).

(** An order intent: the arguments of one [place_order] call. *)
Record order_intent := {
  i_symbol : string;
  i_quantity : Z;
  i_side : string;
  i_order_type : string;
  i_price : option Q
}.

Definition place (i : order_intent) : M order_data :=
  place_order (i_symbol i) (i_quantity i) (i_side i) (i_order_type i) (i_price i).

(** A sequence of [place_order] calls, one after the other; the result is
    the list of the records they return. *)
Fixpoint place_all (l : list order_intent) : M (list order_data) :=
  match l with
  | [] => ret []
  | i :: rest =>
      do o <- place i;
      do os <- place_all rest;
      ret (o :: os)
  end.

(** The execution price a paper order must carry, given the quotes stored
    when the call is made: the quote's [ltp] if the symbol has a quote,
    else the price that was passed, else [0]. *)
Definition paper_price_ok (md : gmap string quote) (i : order_intent)
    (o : order_data) : Prop :=
  match md !! i_symbol i with
  | Some q => executed_price o = Some (ltp q)
  | None =>
      match i_price i with
      | Some p => exists x, executed_price o = Some x /\ (x == p)%Q
      | None => executed_price o = Some 0%Q
      end
  end.

(** The record of a paper order for intent [i]. *)
Definition paper_record_ok (md : gmap string quote) (i : order_intent)
    (o : order_data) : Prop :=
  symbol o = i_symbol i /\ quantity o = i_quantity i /\ side o = i_side i /\
  order_type o = i_order_type i /\ price o = i_price i /\
  o_mode o = "paper" /\ status o = Some EXECUTED /\ paper_price_ok md i o.

(** ** Sessions *)

(** The session invariant of the data model: a running session has a
    strategy loaded. *)
Definition running_has_strategy (w : world) : Prop :=
  is_running (trading_state w) = true -> is_Some (strategy (trading_state w)).

(** The operations that act on the session. *)
Inductive op :=
| OpUpload (file : option uploaded_file)
| OpStart (data_mode : option string)
| OpStop
| OpTick (tick : list token_data)
| OpPlace (i : order_intent).

Definition step (o : op) (w : world) : world :=
  match o with
  | OpUpload file => exec (upload_strategy file) w
  | OpStart data_mode => exec (start_trading data_mode) w
  | OpStop => exec stop_trading w
  | OpTick tick => exec (on_tick tick) w
  | OpPlace i => exec (place i) w
  end.

(** The world when the process starts: [trading_state] has its module-level
    value, nothing has been emitted, the clock has not been read.  The
    clients and the clock are whatever the environment provides. *)
Definition boot (dc : option DhanClient) (avail : bool) (ws : option WsClient)
    (clock : nat -> Q) : world :=
  {| trading_state := initial_state; dhan_client := dc;
     DHAN_AVAILABLE := avail; ws_client := ws; emitted := [];
     wall_clock := clock; clock_reads := O |}.

(** The worlds the operations can produce from a start of the process. *)
Inductive reachable : world -> Prop :=
| reachable_boot dc avail ws clock : reachable (boot dc avail ws clock)
| reachable_step o w : reachable w -> reachable (step o w).

(** What no callback can change, whatever it does with the context: the
    mode, the running flag, the clients and the clock; and it does not
    unload a strategy. *)
Definition kept (w w' : world) : Prop :=
  mode (trading_state w') = mode (trading_state w) /\
  is_running (trading_state w') = is_running (trading_state w) /\
  (is_Some (strategy (trading_state w)) -> is_Some (strategy (trading_state w'))) /\
  dhan_client w' = dhan_client w /\
  DHAN_AVAILABLE w' = DHAN_AVAILABLE w /\
  ws_client w' = ws_client w /\
  wall_clock w' = wall_clock w.

(** The session state named by the specification: mode, running flag and
    strategy handle. *)
Definition same_session (w w' : world) : Prop :=
  mode (trading_state w') = mode (trading_state w) /\
  is_running (trading_state w') = is_running (trading_state w) /\
  strategy (trading_state w') = strategy (trading_state w).

(** ** Sample inputs *)

(** A clock read every tenth of a second from 1700000000. *)
Definition sample_clock (n : nat) : Q :=
  (1700000000 + inject_Z (Z.of_nat n) / 10)%Q.

(** [strategies/example_momentum.py]: [initialize] sets an attribute of the
    context it is given; [on_tick] buys one RELIANCE when a non-zero [ltp]
    is stored for it. *)
Definition example_momentum : strategy_module :=
  {| mem := unit;
     globals := tt;
     m_initialize := Some (fun g => Return g);
     m_on_tick :=
       Some (fun g _ =>
               CtxGetMarketData "RELIANCE"
                 (fun md =>
                    match md with
                    | Some q =>
                        if truthy (ltp q) then
                          CtxPlaceOrder "RELIANCE" 1 "BUY" "MARKET" None
                            (fun _ => Return g)
                        else Return g
                    | None => Return g
                    end));
     m_on_order_update := None |}.

(** A strategy whose [initialize] raises. *)
Definition raising_initialize : strategy_module :=
  {| mem := unit;
     globals := tt;
     m_initialize := Some (fun g => Raise g "watchlist unavailable");
     m_on_tick := None;
     m_on_order_update := None |}.

(** A strategy whose [on_tick] calls [sys.exit()]. *)
Definition exiting_on_tick : strategy_module :=
  {| mem := unit;
     globals := tt;
     m_initialize := None;
     m_on_tick := Some (fun g _ => RaiseExit g "SystemExit");
     m_on_order_update := None |}.

(** A strategy whose [on_tick] places an order and then raises. *)
Definition raising_on_tick : strategy_module :=
  {| mem := unit;
     globals := tt;
     m_initialize := None;
     m_on_tick :=
       Some (fun g _ =>
               CtxPlaceOrder "TCS" 2 "SELL" "MARKET" None
                 (fun _ => Raise g "division by zero"));
     m_on_order_update := None |}.

Definition upload_of (fname : string) (md : strategy_module) : option uploaded_file :=
  Some {| filename := fname; exec_module := Ok md |}.

(** No broker, no feed socket; a RELIANCE quote of 250 arrives before any
    strategy is loaded. *)
Definition w_boot : world := boot None false None sample_clock.

Definition w_quoted : world :=
  step (OpTick [Tok (Some "RELIANCE") (Some 25000%Q) (Some 10)]) w_boot.

Definition w_loaded : world :=
  step (OpUpload (upload_of "example_momentum.py" example_momentum)) w_quoted.

Definition w_paper : world := step (OpStart (Some "paper")) w_loaded.

Definition w_backtest : world := step (OpStart (Some "backtest")) w_loaded.

Definition w_live : world := step (OpStart (Some "live")) w_loaded.

Definition buy_reliance : order_intent :=
  {| i_symbol := "RELIANCE"; i_quantity := 1; i_side := "BUY";
     i_order_type := "MARKET"; i_price := None |}.

Definition sell_tcs_limit : order_intent :=
  {| i_symbol := "TCS"; i_quantity := 2; i_side := "SELL";
     i_order_type := "LIMIT"; i_price := Some 3500%Q |}.

Definition buy_infy : order_intent :=
  {| i_symbol := "INFY"; i_quantity := 5; i_side := "BUY";
     i_order_type := "MARKET"; i_price := None |}.

(** A strategy with a raising [initialize] has been uploaded. *)
Definition w_raising : world :=
  step (OpUpload (upload_of "broken_init.py" raising_initialize)) w_boot.

(** A paper session runs a strategy whose [on_tick] exits. *)
Definition w_exiting : world :=
  step (OpStart (Some "paper"))
    (step (OpUpload (upload_of "exit_tick.py" exiting_on_tick)) w_boot).

(** A paper session runs a strategy whose [on_tick] raises. *)
Definition w_ticking : world :=
  step (OpStart (Some "paper"))
    (step (OpUpload (upload_of "broken_tick.py" raising_on_tick)) w_boot).

Definition tcs_tick : list token_data :=
  [Tok (Some "TCS") (Some 350000%Q) (Some 7)].

(** The runner that [upload_strategy] builds for a file. *)
Definition runner_of (fname : string) (md : strategy_module) : StrategyRunner :=
  {| strategy_path := os_path_join "strategies" fname;
     strategy_module_of := md |}.

(** ** Reasoning about the host monad *)

(** [post m w Q]: running [m] from [w] ends in an outcome and a world that
    satisfy [Q]. *)
Definition post {A} (m : M A) (w : world) (Q : res A -> world -> Prop) : Prop :=
  Q (result m w) (exec m w).

(** What uploads and ticks keep of the session: the mode, the running
    flag, and the presence of a strategy. *)
Definition session_kept (w w' : world) : Prop :=
  mode (trading_state w') = mode (trading_state w) /\
  is_running (trading_state w') = is_running (trading_state w) /\
  (is_Some (strategy (trading_state w)) -> is_Some (strategy (trading_state w'))).

(** The callback body [p], run from [w], ends by raising an [Exception]
    with message [msg]. *)
Definition callback_raises {mem} (p : prog mem) (w : world) (msg : string) : Prop :=
  exists g, result (run_prog p) w = Ok (g, Raised msg).

(** The callback body [p], run from [w], ends by raising a [BaseException]
    that is not an [Exception], such as [SystemExit]. *)
Definition callback_exits {mem} (p : prog mem) (w : world) (msg : string) : Prop :=
  exists g, result (run_prog p) w = Ok (g, Exited msg).

(** The callback uses the context through its methods only, and reads:
    it never writes to [context.orders] or [context.market_data] or to
    the dictionaries they hold. *)
Inductive tame {mem : Type} : prog mem -> Prop :=
| tame_return g : tame (Return g)
| tame_raise g msg : tame (Raise g msg)
| tame_exit g msg : tame (RaiseExit g msg)
| tame_place sym qty sd otype prc k :
    (forall o, tame (k o)) -> tame (CtxPlaceOrder sym qty sd otype prc k)
| tame_get sym k :
    (forall q, tame (k q)) -> tame (CtxGetMarketData sym k)
| tame_read k :
    (forall l, tame (k l)) -> tame (CtxReadOrders k).

(** Both callbacks the host invokes are tame, whatever their arguments. *)
Definition tame_module (md : strategy_module) : Prop :=
  (forall f g, m_initialize md = Some f -> tame (f g)) /\
  (forall f g tick, m_on_tick md = Some f -> tame (f g tick)).

(** The loaded strategy, if any, is tame. *)
Definition tame_world (w : world) : Prop :=
  forall sr, strategy (trading_state w) = Some sr ->
             tame_module (strategy_module_of sr).

(** An upload, if any, brings a tame strategy. *)
Definition tame_op (o : op) : Prop :=
  match o with
  | OpUpload (Some f) => forall md, exec_module f = Ok md -> tame_module md
  | _ => True
  end.

(** ** Vocabulary of the further properties *)

(** The record carried by an [order_update] event. *)
Definition order_update_of (e : event) : option order_data :=
  match e with
  | EvOrderUpdate o => Some o
  | _ => None
  end.

(** The records of the [order_update] events of a list, in order. *)
Fixpoint order_updates (evs : list event) : list order_data :=
  match evs with
  | [] => []
  | e :: rest =>
      match order_update_of e with
      | Some o => o :: order_updates rest
      | None => order_updates rest
      end
  end.

(** From [w] to [w'] the order log and the emitted events were only
    appended to, and the [order_update] events added carry exactly the
    records added. *)
Definition grows (w w' : world) : Prop :=
  exists recs evs,
    orders (trading_state w') = (orders (trading_state w) ++ recs)%list /\
    emitted w' = (emitted w ++ evs)%list /\
    order_updates evs = recs.

(** A sequence of operations, first to last. *)
Definition steps (ops : list op) (w : world) : world :=
  fold_left (fun acc o => step o acc) ops w.

(** Tick handling, as opposed to the other operations. *)
Definition is_tick (o : op) : bool :=
  match o with
  | OpTick _ => true
  | _ => false
  end.

(** While the loaded strategy is tame, running [m] relates every world to
    the one it ends in, and the loaded strategy is tame afterwards. *)
Definition framed (R : world -> world -> Prop) {A} (m : M A) : Prop :=
  forall w, tame_world w -> post m w (fun _ w' => R w w' /\ tame_world w').

(** The stored quotes are the same. *)
Definition quotes_kept (w w' : world) : Prop :=
  market_data (trading_state w') = market_data (trading_state w).

(** The broker call for an order fails with [msg]: [place_order] of the
    SDK raises, or its answer has no [data.orderId]. *)
Definition broker_fails (c : DhanClient) (rq : dhan_request) (msg : string) : Prop :=
  dhan_place_order c rq = DhanRaises msg \/
  exists repr, dhan_place_order c rq = DhanResponse repr (NoOrderId msg).

(** The world with another broker client. *)
Definition with_broker (dc : option DhanClient) (avail : bool) (w : world) : world :=
  {| trading_state := trading_state w; dhan_client := dc;
     DHAN_AVAILABLE := avail; ws_client := ws_client w;
     emitted := emitted w; wall_clock := wall_clock w;
     clock_reads := clock_reads w |}.

(** A broker that accepts purchases and rejects sales. *)
Definition sample_broker : DhanClient :=
  {| dhan_place_order := fun rq =>
       match transaction_type rq with
       | DHAN_BUY => DhanResponse "{'status': 'success'}" (OrderId "552209")
       | DHAN_SELL => DhanRaises "Connection refused"
       end |}.

(** A live session with that broker configured. *)
Definition w_broker : world :=
  step (OpStart (Some "live"))
    (step (OpUpload (upload_of "example_momentum.py" example_momentum))
       (boot (Some sample_broker) true None sample_clock)).

(** An element of a batch on which [.get] works. *)
Definition well_formed (t : token_data) : bool :=
  match t with
  | Tok _ _ _ => true
  | TokMalformed => false
  end.

(** The symbol under which [on_tick] stores an element. *)
Definition symbol_of (t : token_data) : option string :=
  match t with
  | Tok nm _ _ => Some (default "" nm)
  | TokMalformed => None
  end.

(** The ticks are not handed to a strategy: the session is stopped, or no
    strategy is loaded, or the loaded one has no [on_tick]. *)
Definition no_dispatch (w : world) : Prop :=
  is_running (trading_state w) = false \/
  strategy (trading_state w) = None \/
  exists sr, strategy (trading_state w) = Some sr /\
             m_on_tick (strategy_module_of sr) = None.

(** Nothing but the host writes the shared objects during a tick: no
    callback is dispatched, or the loaded strategy is tame. *)
Definition undisturbed (w : world) : Prop :=
  no_dispatch w \/ tame_world w.

(** The world in which [start_trading] calls [initialize]: the requested
    mode is stored and the running flag is set. *)
Definition starting (data_mode : option string) (w : world) : world :=
  with_state (set_is_running true)
    (with_state (set_mode (default "paper" data_mode)) w).

(** [start_trading] reaches the feed: a strategy is loaded, the session is
    stopped, and [initialize] returns. *)
Definition start_reaches_feed (data_mode : option string) (w : world)
    (sr : StrategyRunner) : Prop :=
  strategy (trading_state w) = Some sr /\
  is_running (trading_state w) = false /\
  result (StrategyRunner_initialize sr) (starting data_mode w) = Ok tt.

(** A feed socket whose [connect] fails. *)
Definition dead_feed : WsClient :=
  {| ws_connect := Exc "Handshake status 401"; ws_close_connection := Ok tt |}.

(** A strategy has been uploaded while the feed socket is dead. *)
Definition w_dead_feed : world :=
  step (OpUpload (upload_of "example_momentum.py" example_momentum))
    (boot None false (Some dead_feed) sample_clock).

(** ** Facts about [place_order] *)

Lemma price_or_zero_eq (p : Q) : (price_or_zero (Some p) == p)%Q.
Proof.
  unfold price_or_zero, truthy.
  destruct (Qeq_bool p 0) eqn:E; simpl.
  - apply Qeq_bool_iff in E. symmetry. exact E.
  - reflexivity.
Qed.

(** [place_order] always returns; it appends the returned record to the
    log, and emits some [log] events followed by one [order_update] for
    that record.  Nothing else in the world changes but the clock reads. *)
Lemma place_order_returns sym qty sd otype prc w :
  exists o w' logs,
    place_order sym qty sd otype prc w = (Ok o, w') /\
    trading_state w' = append_order o (trading_state w) /\
    emitted w' = (emitted w ++ logs ++ [EvOrderUpdate o])%list /\
    List.filter is_order_update logs = [] /\
    dhan_client w' = dhan_client w /\
    DHAN_AVAILABLE w' = DHAN_AVAILABLE w /\
    ws_client w' = ws_client w /\
    wall_clock w' = wall_clock w.
Proof.
  unfold place_order, bind, now, get_world. simpl.
  destruct (live_client _) as [c|] eqn:Hc.
  - unfold try_except, bind, dhan_call. simpl.
    destruct (dhan_place_order c _) as [msg|repr [oid|msg]]; simpl;
      do 3 eexists; (split; [reflexivity|]); simpl;
      (split; [reflexivity|]);
      (split; [rewrite <- app_assoc; reflexivity|]);
      repeat split; reflexivity.
  - destruct (String.eqb _ "paper"); simpl.
    + do 3 eexists. split; [reflexivity|]. simpl.
      split; [reflexivity|].
      split; [rewrite <- app_assoc; reflexivity|].
      repeat split; reflexivity.
    + exists
        {| symbol := sym; quantity := qty; side := sd; order_type := otype;
           price := prc; timestamp := wall_clock w (clock_reads w);
           o_mode := mode (trading_state w); order_id := None;
           status := None; executed_price := None |}.
      eexists. exists []. split; [reflexivity|]. simpl.
      repeat split; reflexivity.
Qed.

(** In paper mode the returned record is an executed paper order priced
    from the quotes stored when the call is made. *)
Lemma place_paper_returns (i : order_intent) (w : world) :
  mode (trading_state w) = "paper" ->
  exists o w',
    place i w = (Ok o, w') /\
    trading_state w' = append_order o (trading_state w) /\
    paper_record_ok (market_data (trading_state w)) i o.
Proof.
  intros Hm. destruct i as [sym qty sd otype prc].
  unfold place, place_order, bind, now, get_world, live_client,
    paper_record_ok, paper_price_ok. simpl.
  rewrite Hm. simpl.
  destruct (market_data (trading_state w) !! sym) as [q|] eqn:Hq; simpl.
  - do 2 eexists. split; [reflexivity|]. simpl.
    repeat split; reflexivity.
  - do 2 eexists. split; [reflexivity|]. simpl.
    repeat split; try reflexivity.
    destruct prc as [p|]; [|reflexivity].
    exists (price_or_zero (Some p)). split; [reflexivity|].
    apply price_or_zero_eq.
Qed.

(** ** C1 *)

(** C1.  Any sequence of [place_order] calls made in paper mode returns;
    the order log afterwards is the log before followed by exactly one
    record per call, in call order; each record has status [EXECUTED] and
    its [executed_price] is the [ltp] of the quote stored for its symbol at
    call time if there is one, else the price passed to the call if one was
    passed, else [0].  (The calls leave the mode and the stored quotes as
    they were, so the quotes at each call are those of the start.) *)
Theorem place_all_paper_executed (l : list order_intent) (w : world) :
  mode (trading_state w) = "paper" ->
  exists recs w',
    place_all l w = (Ok recs, w') /\
    orders (trading_state w') = (orders (trading_state w) ++ recs)%list /\
    Forall2 (paper_record_ok (market_data (trading_state w))) l recs /\
    mode (trading_state w') = "paper" /\
    market_data (trading_state w') = market_data (trading_state w).
Proof.
  revert w. induction l as [|i rest IH]; intros w Hm.
  - exists [], w. simpl. rewrite app_nil_r. repeat split; auto.
  - destruct (place_paper_returns i w Hm) as (o & w1 & Hrun & Hst & Hrec).
    assert (Hm1 : mode (trading_state w1) = "paper")
      by (rewrite Hst; exact Hm).
    destruct (IH w1 Hm1) as (recs & w2 & Hrest & Hlog & Hall & Hm2 & Hmd).
    exists (o :: recs), w2. simpl. unfold bind.
    rewrite Hrun, Hrest. split; [reflexivity|].
    rewrite Hst in Hlog, Hmd, Hall. simpl in Hlog, Hmd, Hall.
    split; [rewrite Hlog, <- app_assoc; reflexivity|].
    split; [constructor; assumption|].
    split; assumption.
Qed.

(** C1 at work: three paper orders, one with a stored quote, one with a
    limit price and no quote, one with neither. *)
Lemma place_all_paper_executed_witness :
  mode (trading_state w_paper) = "paper" /\
  exists recs w',
    place_all [buy_reliance; sell_tcs_limit; buy_infy] w_paper = (Ok recs, w') /\
    orders (trading_state w') = (orders (trading_state w_paper) ++ recs)%list /\
    Forall2 (paper_record_ok (market_data (trading_state w_paper)))
      [buy_reliance; sell_tcs_limit; buy_infy] recs /\
    mode (trading_state w') = "paper" /\
    market_data (trading_state w') = market_data (trading_state w_paper).
Proof.
  split; [reflexivity|].
  apply (place_all_paper_executed [buy_reliance; sell_tcs_limit; buy_infy] w_paper).
  reflexivity.
Defined.

(** ** C2 *)

(** C2.  Whatever the intent, the mode and the behaviour of the broker
    client (absent, raising, answering with or without an order id), one
    [place_order] call returns, makes the order log one record longer (the
    record it returns, appended at the end), and emits exactly one
    [order_update] event, carrying that record. *)
Theorem place_order_one_record_one_event sym qty sd otype prc (w : world) :
  exists o w' logs,
    place_order sym qty sd otype prc w = (Ok o, w') /\
    orders (trading_state w') = (orders (trading_state w) ++ [o])%list /\
    emitted w' = (emitted w ++ logs ++ [EvOrderUpdate o])%list /\
    count_order_updates logs = 0%nat /\
    count_order_updates (emitted w') = S (count_order_updates (emitted w)).
Proof.
  destruct (place_order_returns sym qty sd otype prc w)
    as (o & w' & logs & Hrun & Hst & Hev & Hlogs & _).
  exists o, w', logs. split; [exact Hrun|].
  split; [rewrite Hst; reflexivity|].
  split; [exact Hev|].
  unfold count_order_updates.
  split; [rewrite Hlogs; reflexivity|].
  rewrite Hev, !List.filter_app, Hlogs, !List.length_app. simpl. lia.
Qed.

(** ** C3 *)

(** C3.  With a quote of 250 stored for RELIANCE, the same call is made in
    a session started in paper mode and in one started in backtest mode.
    The paper record has an order id, status [EXECUTED] and execution price
    250; the backtest record has no order id, no status and no execution
    price, and no log line is written for it. *)
Lemma backtest_record_has_no_status :
  exists o_paper o_backtest,
    market_data (trading_state w_backtest) = market_data (trading_state w_paper) /\
    mode (trading_state w_paper) = "paper" /\
    mode (trading_state w_backtest) = "backtest" /\
    result (place buy_reliance) w_paper = Ok o_paper /\
    result (place buy_reliance) w_backtest = Ok o_backtest /\
    order_id o_paper = Some "PAPER_1700000000" /\
    status o_paper = Some EXECUTED /\
    executed_price o_paper = Some (25000 / 100)%Q /\
    order_id o_backtest = None /\
    status o_backtest = None /\
    executed_price o_backtest = None /\
    orders (trading_state (exec (place buy_reliance) w_backtest)) = [o_backtest] /\
    emitted (exec (place buy_reliance) w_backtest) =
      (emitted w_backtest ++ [EvOrderUpdate o_backtest])%list.
Proof.
  do 2 eexists.
  split; [reflexivity|].
  split; [reflexivity|].
  split; [reflexivity|].
  split; [vm_compute; reflexivity|].
  split; [vm_compute; reflexivity|].
  repeat split; reflexivity.
Qed.

(** ** C4 *)

(** C4.  A session is started in live mode while no broker client is
    configured.  A [place_order] call then returns a record with no status
    at all (not [FAILED]) and no order id; the only event emitted is the
    [order_update], so no error message is logged; the order log grows by
    that one record. *)
Lemma live_without_client_has_no_status :
  exists o,
    mode (trading_state w_live) = "live" /\
    dhan_client w_live = None /\
    result (place buy_reliance) w_live = Ok o /\
    status o = None /\
    order_id o = None /\
    orders (trading_state (exec (place buy_reliance) w_live)) =
      (orders (trading_state w_live) ++ [o])%list /\
    emitted (exec (place buy_reliance) w_live) =
      (emitted w_live ++ [EvOrderUpdate o])%list.
Proof.
  eexists.
  split; [reflexivity|].
  split; [reflexivity|].
  split; [vm_compute; reflexivity|].
  repeat split; reflexivity.
Qed.

(** ** C5 *)

(** C5.  Both failures of [start_trading] are reported, but the mode of
    the request has already been stored.  A session running in paper mode
    receives a start request for live mode: the answer is the error
    [Already running], the session keeps running with its strategy, and its
    mode is now [live].  With no strategy loaded the answer is
    [No strategy loaded] and the mode is likewise overwritten. *)
Lemma failed_start_overwrites_mode :
  (is_running (trading_state w_paper) = true /\
   mode (trading_state w_paper) = "paper" /\
   result (start_trading (Some "live")) w_paper = Ok (Error400 "Already running") /\
   is_running (trading_state (exec (start_trading (Some "live")) w_paper)) = true /\
   strategy (trading_state (exec (start_trading (Some "live")) w_paper)) =
     strategy (trading_state w_paper) /\
   mode (trading_state (exec (start_trading (Some "live")) w_paper)) = "live") /\
  (strategy (trading_state w_boot) = None /\
   mode (trading_state w_boot) = "paper" /\
   result (start_trading (Some "live")) w_boot = Ok (Error400 "No strategy loaded") /\
   is_running (trading_state (exec (start_trading (Some "live")) w_boot)) = false /\
   strategy (trading_state (exec (start_trading (Some "live")) w_boot)) = None /\
   mode (trading_state (exec (start_trading (Some "live")) w_boot)) = "live").
Proof.
  repeat split; reflexivity.
Qed.

(** ** C9 *)

(** C9.  Two [place_order] calls made in paper mode within the same second
    of the wall clock (here three tenths of a second apart) receive the
    same order id. *)
Lemma paper_order_ids_collide :
  exists o1 o2,
    result (place_all [buy_reliance; buy_infy]) w_paper = Ok [o1; o2] /\
    orders (trading_state (exec (place_all [buy_reliance; buy_infy]) w_paper)) =
      [o1; o2] /\
    (timestamp o2 - timestamp o1 == 3 / 10)%Q /\
    order_id o1 = Some "PAPER_1700000000" /\
    order_id o2 = Some "PAPER_1700000000".
Proof.
  do 2 eexists.
  split; [vm_compute; reflexivity|].
  repeat split; reflexivity.
Qed.

(** ** Rules of the host monad and frame lemmas *)

Lemma post_bind {A B} (m : M A) (k : A -> M B) w (Q : res B -> world -> Prop) :
  post m w (fun r w1 =>
              match r with
              | Ok a => post (k a) w1 Q
              | Exc e => Q (Exc e) w1
              | Exit e => Q (Exit e) w1
              end) ->
  post (bind m k) w Q.
Proof.
  unfold post, result, exec, bind.
  destruct (m w) as [[a|e|e] w1]; simpl; auto.
Qed.

Lemma post_try {A} (body : M A) (h : string -> M A) w (Q : res A -> world -> Prop) :
  post body w (fun r w1 =>
                 match r with
                 | Ok a => Q (Ok a) w1
                 | Exc e => post (h e) w1 Q
                 | Exit e => Q (Exit e) w1
                 end) ->
  post (try_except body h) w Q.
Proof.
  unfold post, result, exec, try_except.
  destruct (body w) as [[a|e|e] w1]; simpl; auto.
Qed.

Lemma post_try_all {A} (body : M A) (h : M A) w (Q : res A -> world -> Prop) :
  post body w (fun r w1 =>
                 match r with
                 | Ok a => Q (Ok a) w1
                 | Exc _ => post h w1 Q
                 | Exit _ => post h w1 Q
                 end) ->
  post (try_except_all body h) w Q.
Proof.
  unfold post, result, exec, try_except_all.
  destruct (body w) as [[a|e|e] w1]; simpl; auto.
Qed.

(** Reads of the state leave the world as it is, and a change of the
    state is [with_state]. *)
Ltac plain_state :=
  repeat match goal with
         | |- context [exec get_state ?x] => change (exec get_state x) with x
         | |- context [exec get_world ?x] => change (exec get_world x) with x
         | |- context [exec (modify_state ?f) ?x] =>
             change (exec (modify_state f) x) with (with_state f x)
         end.

Lemma post_conseq {A} (m : M A) w (P Q : res A -> world -> Prop) :
  post m w P -> (forall r w', P r w' -> Q r w') -> post m w Q.
Proof. unfold post. auto. Qed.

Lemma kept_refl w : kept w w.
Proof. unfold kept. repeat split; auto. Qed.

Lemma kept_trans w1 w2 w3 : kept w1 w2 -> kept w2 w3 -> kept w1 w3.
Proof.
  unfold kept. intros (a1 & a2 & a4 & a5 & a6 & a7 & a8)
    (b1 & b2 & b4 & b5 & b6 & b7 & b8).
  repeat split; try congruence. auto.
Qed.

Lemma place_order_post sym qty sd otype prc w :
  post (place_order sym qty sd otype prc) w
    (fun r w' => (exists o, r = Ok o) /\ kept w w').
Proof.
  destruct (place_order_returns sym qty sd otype prc w)
    as (o & w' & logs & Hrun & Hst & Hev & Hlogs & H1 & H2 & H3 & H4).
  unfold post, result, exec. rewrite Hrun. simpl.
  split; [eauto|]. unfold kept. rewrite Hst. simpl. repeat split; auto.
Qed.

Lemma kept_state (f : trading_state_t -> trading_state_t) w :
  (forall s, mode (f s) = mode s) ->
  (forall s, is_running (f s) = is_running s) ->
  (forall s, strategy (f s) = strategy s) ->
  kept w (with_state f w).
Proof.
  intros Hm Hr Hs. unfold kept. simpl. rewrite Hm, Hr, Hs.
  repeat split; auto.
Qed.

Lemma run_prog_post {mem} (p : prog mem) w :
  post (run_prog p) w (fun r w' => (exists a, r = Ok a) /\ kept w w').
Proof.
  revert w.
  induction p as [g|g msg|g msg|sym qty sd otype prc k IH|sym k IH|k IH|f k IH|f k IH];
    intros w.
  - split; [eexists; reflexivity|apply kept_refl].
  - split; [eexists; reflexivity|apply kept_refl].
  - split; [eexists; reflexivity|apply kept_refl].
  - simpl. apply post_bind.
    eapply post_conseq; [apply place_order_post|].
    intros r w1 [[o ->] Hk].
    eapply post_conseq; [apply IH|].
    intros r' w2 [Hr Hk2]. split; [exact Hr|]. eapply kept_trans; eassumption.
  - simpl. apply post_bind. unfold post at 1. simpl.
    apply IH.
  - simpl. apply post_bind. unfold post at 1. simpl.
    apply IH.
  - simpl. apply post_bind. unfold post at 1. simpl.
    eapply post_conseq; [apply IH|].
    intros r' w2 [Hr Hk2]. split; [exact Hr|].
    eapply kept_trans; [|exact Hk2]. apply kept_state; reflexivity.
  - simpl. apply post_bind. unfold post at 1. simpl.
    eapply post_conseq; [apply IH|].
    intros r' w2 [Hr Hk2]. split; [exact Hr|].
    eapply kept_trans; [|exact Hk2]. apply kept_state; reflexivity.
Qed.

Lemma call_module_post self p w :
  post (call_module self p) w
    (fun _ w' => kept w w' /\ is_Some (strategy (trading_state w'))).
Proof.
  unfold call_module. apply post_bind.
  eapply post_conseq; [apply run_prog_post|].
  intros r w1 [[[g e] ->] Hk].
  apply post_bind. unfold post at 1. simpl.
  assert (Hk' : kept w (with_state (set_strategy (Some {| strategy_path := strategy_path self;
                        strategy_module_of :=
                          set_globals (strategy_module_of self) g |})) w1)).
  { destruct Hk as (a1 & a2 & a4 & a5 & a6 & a7 & a8).
    unfold kept. simpl. repeat split; auto. }
  destruct e; unfold post; simpl; (split; [exact Hk'|eauto]).
Qed.

Lemma same_session_refl w : same_session w w.
Proof. unfold same_session. auto. Qed.

Lemma store_ticks_post tick w :
  post (store_ticks tick) w (fun _ w' => same_session w w').
Proof.
  revert w. induction tick as [|[nm lp vol|] rest IH]; intros w.
  - apply same_session_refl.
  - simpl. apply post_bind. unfold post at 1. simpl.
    apply post_bind. unfold post at 1. simpl.
    eapply post_conseq; [apply IH|].
    intros r w' H. exact H.
  - apply same_session_refl.
Qed.

Lemma on_tick_post tick w :
  post (on_tick tick) w (fun _ w' => session_kept w w').
Proof.
  unfold on_tick. apply post_try. apply post_bind.
  eapply post_conseq; [apply store_ticks_post|].
  intros r w1 (Hm & Hr & Hs).
  assert (H1 : session_kept w w1).
  { unfold session_kept. rewrite Hm, Hr, Hs. auto. }
  assert (Hlog : forall e w2, session_kept w w2 ->
            post (log_message ("Tick error: " ++ e) "error") w2
              (fun _ w' => session_kept w w')).
  { intros e w2 H2. unfold post. simpl. exact H2. }
  destruct r as [[]|e|e]; [|apply Hlog; exact H1|exact H1].
  apply post_bind. unfold post at 1. simpl.
  apply post_bind.
  assert (Hend : forall w2, session_kept w w2 ->
            post (do s' <- get_state; emit (EvMarketData (market_data s')))%host w2
              (fun _ w' => session_kept w w')).
  { intros w2 H2. unfold post. simpl. exact H2. }
  destruct (is_running (trading_state w1)).
  - destruct (strategy (trading_state w1)) as [sr|].
    + unfold StrategyRunner_on_tick.
      destruct (m_on_tick (strategy_module_of sr)) as [f|].
      * eapply post_conseq; [apply call_module_post|].
        intros r w2 [(a1 & a2 & a4 & _) _].
        assert (H2 : session_kept w w2).
        { destruct H1 as (b1 & b2 & b3). unfold session_kept.
          rewrite a1, a2. auto. }
        destruct r as [[]|e|e]; [apply Hend|apply Hlog|]; exact H2.
      * unfold post at 1. simpl. apply Hend. exact H1.
    + unfold post at 1. simpl. apply Hend. exact H1.
  - unfold post at 1. simpl. apply Hend. exact H1.
Qed.

Lemma upload_strategy_post file w :
  post (upload_strategy file) w (fun _ w' => session_kept w w').
Proof.
  assert (H0 : session_kept w w) by (unfold session_kept; auto).
  unfold upload_strategy. destruct file as [f|].
  - destruct (negb _).
    + exact H0.
    + unfold post, result, exec, try_except, bind, lift_res. simpl.
      destruct (exec_module f) as [md|e|e]; simpl.
      * unfold session_kept. simpl. eauto.
      * exact H0.
      * exact H0.
  - exact H0.
Qed.

Lemma stop_trading_post w :
  post stop_trading w
    (fun r w' => r = Ok Success /\ is_running (trading_state w') = false /\
                 mode (trading_state w') = mode (trading_state w) /\
                 strategy (trading_state w') = strategy (trading_state w) /\
                 orders (trading_state w') = orders (trading_state w) /\
                 market_data (trading_state w') = market_data (trading_state w)).
Proof.
  unfold post, result, exec, stop_trading, bind, try_except_all, lift_res. simpl.
  destruct (ws_client w) as [c|]; simpl.
  - destruct (ws_close_connection c) as [[]|e|e]; simpl; repeat split; reflexivity.
  - repeat split; reflexivity.
Qed.

Lemma initialize_kept self w :
  kept w (exec (StrategyRunner_initialize self) w).
Proof.
  unfold StrategyRunner_initialize.
  destruct (m_initialize (strategy_module_of self)) as [f|].
  - apply (call_module_post self _ w).
  - apply kept_refl.
Qed.

Lemma start_trading_post data_mode w :
  running_has_strategy w ->
  post (start_trading data_mode) w (fun _ w' => running_has_strategy w').
Proof.
  intros Hinv. unfold start_trading.
  apply post_bind. unfold post at 1. simpl.
  apply post_bind. unfold post at 1. simpl.
  destruct (strategy (trading_state w)) as [sr|] eqn:Hs.
  - destruct (is_running (trading_state w)) eqn:Hr.
    + unfold post, running_has_strategy. simpl. rewrite Hs. eauto.
    + apply post_try. apply post_bind. unfold post at 1. simpl.
      apply post_bind. unfold post at 1. simpl. rewrite Hs.
      assert (Hfail : forall e w2,
                post (do _ <- modify_state (set_is_running false);
                      do _ <- log_message ("Start failed: " ++ e) "error";
                      ret (Error400 e))%host w2
                  (fun _ w' => running_has_strategy w')).
      { intros e w2. unfold post, running_has_strategy. simpl. discriminate. }
      apply post_bind. unfold post at 1.
      repeat match goal with
             | |- context [exec get_state ?x] => change (exec get_state x) with x
             | |- context [exec (modify_state ?f) ?x] =>
                 change (exec (modify_state f) x) with (with_state f x)
             end.
      set (w1 := with_state (set_is_running true)
                   (with_state (set_mode (default "paper" data_mode)) w)).
      pose proof (initialize_kept sr w1) as (_ & _ & Hs2 & _).
      set (w2 := exec (StrategyRunner_initialize sr) w1) in *.
      assert (Hsome : running_has_strategy w2).
      { intros _. apply Hs2. simpl. rewrite Hs. eauto. }
      destruct (result (StrategyRunner_initialize sr) w1) as [[]|e|e];
        [|apply Hfail|exact Hsome].
      apply post_bind. unfold post at 1. simpl.
      apply post_bind.
      assert (Hrest : post (do _ <- log_message
                                      ("Trading started in " ++
                                       mode (trading_state w2) ++ " mode")
                                      "success";
                            ret Success)%host w2
                        (fun r w' =>
                           match r with
                           | Ok _ => running_has_strategy w'
                           | Exc e =>
                               post (do _ <- modify_state (set_is_running false);
                                     do _ <- log_message ("Start failed: " ++ e) "error";
                                     ret (Error400 e))%host w'
                                 (fun _ w' => running_has_strategy w')
                           | Exit _ => running_has_strategy w'
                           end)).
      { unfold post. simpl. exact Hsome. }
      destruct (ws_client w2) as [c|]; [|exact Hrest].
      destruct (negb _); [|exact Hrest].
      unfold post at 1, lift_res, result, exec. simpl.
      destruct (ws_connect c) as [[]|e|e]; simpl;
        [exact Hrest|apply Hfail|exact Hsome].
  - unfold post, running_has_strategy. simpl. intros Hr. apply Hinv. exact Hr.
Qed.

(** Every operation keeps the session invariant. *)
Lemma step_keeps_invariant (o : op) (w : world) :
  running_has_strategy w -> running_has_strategy (step o w).
Proof.
  intros Hinv.
  assert (Hk : forall w', session_kept w w' -> running_has_strategy w').
  { intros w' (_ & Hr & Hs) Hrun. apply Hs, Hinv. rewrite <- Hr. exact Hrun. }
  destruct o as [file|data_mode| |tick|i]; simpl.
  - apply Hk. apply (upload_strategy_post file w).
  - apply (start_trading_post data_mode w Hinv).
  - pose proof (stop_trading_post w) as (_ & Hr & _).
    unfold running_has_strategy. rewrite Hr. discriminate.
  - apply Hk. apply (on_tick_post tick w).
  - pose proof (place_order_post (i_symbol i) (i_quantity i) (i_side i)
                  (i_order_type i) (i_price i) w) as (_ & a1 & a2 & a4 & _).
    apply Hk. unfold session_kept. auto.
Qed.

(** ** C6 *)

(** C6.  The invariant [running implies a strategy is loaded] is kept by
    every operation (strategy upload, start, stop, tick handling, order
    placement), whatever the operation's outcome, failing starts included;
    it holds when the process starts, hence in every reachable state. *)
Theorem running_implies_strategy_loaded :
  (forall o w, running_has_strategy w -> running_has_strategy (step o w)) /\
  (forall w, reachable w -> running_has_strategy w).
Proof.
  split; [exact step_keeps_invariant|].
  induction 1 as [dc avail ws clock|o w Hreach IH].
  - unfold running_has_strategy. simpl. discriminate.
  - apply step_keeps_invariant. exact IH.
Qed.

(** C6 at work: starting a paper session after an upload. *)
Lemma running_implies_strategy_loaded_witness :
  (running_has_strategy w_loaded /\
   running_has_strategy (step (OpStart (Some "paper")) w_loaded)) /\
  (reachable w_paper /\ running_has_strategy w_paper).
Proof.
  assert (Hreach : reachable w_paper).
  { unfold w_paper, w_loaded, w_quoted, w_boot. repeat constructor. }
  assert (Hloaded : running_has_strategy w_loaded).
  { intros _. vm_compute. eauto. }
  split.
  - split; [exact Hloaded|].
    exact (proj1 running_implies_strategy_loaded (OpStart (Some "paper"))
             w_loaded Hloaded).
  - split; [exact Hreach|].
    exact (proj2 running_implies_strategy_loaded w_paper Hreach).
Defined.

(** ** C7 *)

(** C7, as stated, fails: the process has just started and the session is
    stopped; [stop_trading] is called twice.  Both calls succeed, and the
    second one emits a second [Trading stopped] log event. *)
Lemma stop_twice_logs_twice :
  let w1 := exec stop_trading w_boot in
  let w2 := exec stop_trading w1 in
  is_running (trading_state w_boot) = false /\
  result stop_trading w1 = Ok Success /\
  emitted w1 = [EvLog (sample_clock 0) "Trading stopped" "warning"] /\
  emitted w2 = [EvLog (sample_clock 0) "Trading stopped" "warning";
                EvLog (sample_clock 1) "Trading stopped" "warning"] /\
  emitted w2 <> emitted w1.
Proof.
  repeat split; try reflexivity.
  intros H. discriminate H.
Qed.

(** C7, amended.  From any state [stop_trading] succeeds and leaves the
    session not running; a second call in a row succeeds too and leaves
    [trading_state] exactly as the first call left it.  Every call, the
    second included, emits one [Trading stopped] log event. *)
Theorem stop_trading_idempotent_on_session (w : world) :
  let w1 := exec stop_trading w in
  let w2 := exec stop_trading w1 in
  result stop_trading w = Ok Success /\
  result stop_trading w1 = Ok Success /\
  is_running (trading_state w1) = false /\
  is_running (trading_state w2) = false /\
  trading_state w2 = trading_state w1 /\
  emitted w1 =
    (emitted w ++ [EvLog (wall_clock w (clock_reads w)) "Trading stopped" "warning"])%list /\
  emitted w2 =
    (emitted w1 ++ [EvLog (wall_clock w1 (clock_reads w1)) "Trading stopped" "warning"])%list.
Proof.
  destruct w as [ts dc avail [[cn [[]|e|e]]|] evs clock reads];
    repeat split; reflexivity.
Qed.

(** ** C8 *)

(** A tame callback leaves the quotes as they are. *)
Lemma tame_keeps_quotes {mem} (p : prog mem) w :
  tame p ->
  post (run_prog p) w
    (fun _ w' => market_data (trading_state w') = market_data (trading_state w)).
Proof.
  intros Hp. revert w.
  induction Hp as [g|g msg|g msg|sym qty sd otype prc k _ IH|sym k _ IH|k _ IH];
    intros w; try reflexivity.
  - simpl. apply post_bind.
    destruct (place_order_returns sym qty sd otype prc w)
      as (o & w1 & logs & Hrun & Hst & _).
    unfold post at 1, result, exec. rewrite Hrun. simpl.
    eapply post_conseq; [apply IH|].
    intros r w2 H. simpl in H. rewrite H, Hst. reflexivity.
  - simpl. apply post_bind. unfold post at 1. simpl. apply IH.
  - simpl. apply post_bind. unfold post at 1. simpl. apply IH.
Qed.

(** After a call into the module the runner is the same one, with the
    globals the callback left. *)
Lemma call_module_strategy self p w :
  post (call_module self p) w
    (fun _ w' =>
       exists g,
         strategy (trading_state w') =
           Some {| strategy_path := strategy_path self;
                   strategy_module_of := set_globals (strategy_module_of self) g |}).
Proof.
  unfold call_module. apply post_bind.
  eapply post_conseq; [apply run_prog_post|].
  intros r w1 [[[g e] ->] _].
  apply post_bind. unfold post at 1. simpl.
  destruct e; unfold post; simpl; eauto.
Qed.

Lemma tame_module_set_globals md g :
  tame_module md -> tame_module (set_globals md g).
Proof. intros H. exact H. Qed.

(** The loop over a batch writes quotes and reads the clock, nothing else. *)
Lemma store_ticks_only_quotes tick w :
  let w' := exec (store_ticks tick) w in
  same_session w w' /\
  orders (trading_state w') = orders (trading_state w) /\
  emitted w' = emitted w /\
  wall_clock w' = wall_clock w /\
  ws_client w' = ws_client w /\
  dhan_client w' = dhan_client w /\
  DHAN_AVAILABLE w' = DHAN_AVAILABLE w.
Proof.
  revert w. induction tick as [|[nm lp vol|] rest IH]; intros w.
  - unfold same_session. simpl. repeat split; reflexivity.
  - simpl. unfold exec, bind, now, modify_state. simpl.
    match goal with |- context [store_ticks rest ?w0] =>
      specialize (IH w0) end.
    unfold exec in IH. simpl in IH. exact IH.
  - unfold same_session. simpl. repeat split; reflexivity.
Qed.

(** Tick handling keeps the running flag, and the loaded strategy up to
    the globals its callback leaves: being undisturbed lasts. *)
Lemma on_tick_undisturbed tick w :
  undisturbed w -> undisturbed (exec (on_tick tick) w).
Proof.
  intros Hu.
  enough (H : post (on_tick tick) w
                (fun _ w' =>
                   is_running (trading_state w') = is_running (trading_state w) /\
                   (strategy (trading_state w') = strategy (trading_state w) \/
                    exists sr g,
                      strategy (trading_state w) = Some sr /\
                      strategy (trading_state w') =
                        Some {| strategy_path := strategy_path sr;
                                strategy_module_of :=
                                  set_globals (strategy_module_of sr) g |}))).
  { destruct H as (Hr & Hs). unfold undisturbed, no_dispatch, tame_world in *.
    destruct Hs as [Hs|(sr & g & Hs & Hs')].
    - rewrite Hr, Hs. exact Hu.
    - destruct Hu as [[Hu|[Hu|(sr0 & Hu & Hf)]]|Hu].
      + left. left. rewrite Hr. exact Hu.
      + rewrite Hu in Hs. discriminate Hs.
      + left. right. right. eexists. split; [exact Hs'|].
        simpl. rewrite Hu in Hs. injection Hs as <-. exact Hf.
      + right. intros sr' Hsr'. rewrite Hs' in Hsr'. injection Hsr' as <-.
        simpl. apply tame_module_set_globals. apply Hu. exact Hs. }
  destruct (store_ticks_only_quotes tick w) as ((_ & Hr1 & Hs1) & _).
  cbv zeta in Hr1, Hs1.
  unfold on_tick. apply post_try. apply post_bind. unfold post at 1.
  set (w1 := exec (store_ticks tick) w) in *.
  set (Q := fun (_ : res unit) (w' : world) =>
              is_running (trading_state w') = is_running (trading_state w) /\
              (strategy (trading_state w') = strategy (trading_state w) \/
               exists sr g,
                 strategy (trading_state w) = Some sr /\
                 strategy (trading_state w') =
                   Some {| strategy_path := strategy_path sr;
                           strategy_module_of :=
                             set_globals (strategy_module_of sr) g |})).
  assert (Hlog : forall e w2, Q (Ok tt) w2 ->
            post (log_message ("Tick error: " ++ e) "error") w2 Q).
  { intros e w2 H2. exact H2. }
  assert (Hend : forall w2, Q (Ok tt) w2 ->
            post (do s' <- get_state; emit (EvMarketData (market_data s')))%host
              w2 Q).
  { intros w2 H2. exact H2. }
  assert (H1 : Q (Ok tt) w1) by (unfold Q; auto).
  destruct (result (store_ticks tick) w) as [[]|e|e];
    [|apply Hlog; exact H1|exact H1].
  apply post_bind. unfold post at 1. simpl.
  apply post_bind.
  destruct (is_running (trading_state w1)) eqn:Hrun;
    [|unfold post at 1; simpl; apply Hend; exact H1].
  destruct (strategy (trading_state w1)) as [sr|] eqn:Hsr;
    [|unfold post at 1; simpl; apply Hend; exact H1].
  unfold StrategyRunner_on_tick.
  destruct (m_on_tick (strategy_module_of sr)) as [f|];
    [|unfold post at 1; simpl; apply Hend; exact H1].
  pose proof (call_module_post sr (f (globals (strategy_module_of sr)) tick) w1)
    as Hk.
  pose proof (call_module_strategy sr (f (globals (strategy_module_of sr)) tick) w1)
    as Hg.
  unfold post in Hk, Hg |- *. plain_state.
  destruct Hk as ((_ & Hr2 & _) & _). destruct Hg as (g & Hg).
  assert (H2 : Q (Ok tt) (exec (call_module sr (f (globals (strategy_module_of sr)) tick)) w1)).
  { unfold Q. split; [rewrite Hr2, Hrun; exact Hr1|]. right. exists sr, g.
    split; [symmetry; exact Hs1|exact Hg]. }
  destruct (result (call_module sr (f (globals (strategy_module_of sr)) tick)) w1)
    as [[]|e|e]; [apply Hend|apply Hlog|]; exact H2.
Qed.

(** While undisturbed, the quotes after [on_tick] are those written by its
    loop over the batch: neither a tame callback nor the error handler
    touches them. *)
Lemma on_tick_quotes tick w :
  undisturbed w ->
  market_data (trading_state (exec (on_tick tick) w)) =
  market_data (trading_state (exec (store_ticks tick) w)).
Proof.
  intros Hu.
  enough (H : post (on_tick tick) w
                (fun _ w' => market_data (trading_state w') =
                             market_data (trading_state (exec (store_ticks tick) w))))
    by exact H.
  destruct (store_ticks_only_quotes tick w) as ((_ & Hr1 & Hs1) & _).
  cbv zeta in Hr1, Hs1.
  unfold on_tick. apply post_try. apply post_bind. unfold post at 1.
  set (w1 := exec (store_ticks tick) w) in *.
  assert (Hlog : forall e w2,
            market_data (trading_state w2) = market_data (trading_state w1) ->
            post (log_message ("Tick error: " ++ e) "error") w2
              (fun _ w' => market_data (trading_state w') =
                           market_data (trading_state w1))).
  { intros e w2 H2. unfold post. simpl. exact H2. }
  assert (Hend : forall w2,
            market_data (trading_state w2) = market_data (trading_state w1) ->
            post (do s' <- get_state; emit (EvMarketData (market_data s')))%host w2
              (fun _ w' => market_data (trading_state w') =
                           market_data (trading_state w1))).
  { intros w2 H2. unfold post. simpl. exact H2. }
  destruct (result (store_ticks tick) w) as [[]|e|e];
    [|apply Hlog; reflexivity|reflexivity].
  apply post_bind. unfold post at 1. simpl.
  apply post_bind.
  destruct (is_running (trading_state w1)) eqn:Hrun;
    [|unfold post at 1; simpl; apply Hend; reflexivity].
  destruct (strategy (trading_state w1)) as [sr|] eqn:Hsr;
    [|unfold post at 1; simpl; apply Hend; reflexivity].
  unfold StrategyRunner_on_tick.
  destruct (m_on_tick (strategy_module_of sr)) as [f|] eqn:Hf;
    [|unfold post at 1; simpl; apply Hend; reflexivity].
  assert (Ht : tame (f (globals (strategy_module_of sr)) tick)).
  { destruct Hu as [[Hu|[Hu|(sr0 & Hu & Hf0)]]|Hu].
    - rewrite Hu in Hr1. discriminate Hr1.
    - rewrite Hu in Hs1. discriminate Hs1.
    - rewrite Hu in Hs1. injection Hs1 as ->.
      rewrite Hf0 in Hf. discriminate Hf.
    - apply (proj2 (Hu sr (eq_sym Hs1)) f _ tick Hf). }
  unfold call_module. apply post_bind.
  eapply post_conseq; [apply (tame_keeps_quotes _ w1 Ht)|].
  intros [[g e]|e|e] w2 H2; [|exact H2|exact H2].
  apply post_bind. unfold post at 1. simpl.
  destruct e; unfold post at 1; simpl;
    [apply Hend|apply Hlog|]; exact H2.
Qed.

(** C8.  A tick update for any symbol with [last_traded_price] 10150 (the
    feed sends hundredths, so 101.5) followed by a lookup of that symbol
    returns a quote whose [ltp] is 101.5; a subsequent update with 10200
    makes the lookup return the quote built from that tick alone: [ltp]
    102.0, the volume of the second tick (0 when it carries none, not the
    earlier volume) and the time of the second update.  This holds of the
    update itself, the loop of [on_tick], from every state; and of the
    whole feed callback when nothing but the host writes the quotes during
    it (no callback is dispatched, or the strategy is tame). *)
Theorem tick_update_replaces_quote (sym : string) (vol1 vol2 : option Z) :
  let t1 := [Tok (Some sym) (Some 10150%Q) vol1] in
  let t2 := [Tok (Some sym) (Some 10200%Q) vol2] in
  (forall w : world,
     let w1 := exec (store_ticks t1) w in
     let w2 := exec (store_ticks t2) w1 in
     (exists q,
        result (get_market_data sym) w1 = Ok (Some q) /\
        (ltp q == 101.5)%Q /\
        volume q = default 0 vol1 /\
        q_timestamp q = wall_clock w (clock_reads w)) /\
     (exists q,
        result (get_market_data sym) w2 = Ok (Some q) /\
        q = {| ltp := (10200 / 100)%Q;
               volume := default 0 vol2;
               q_timestamp := wall_clock w1 (clock_reads w1) |} /\
        (ltp q == 102.0)%Q)) /\
  (forall w : world,
     undisturbed w ->
     let w1 := exec (on_tick t1) w in
     let w2 := exec (on_tick t2) w1 in
     (exists q,
        result (get_market_data sym) w1 = Ok (Some q) /\
        (ltp q == 101.5)%Q /\
        volume q = default 0 vol1 /\
        q_timestamp q = wall_clock w (clock_reads w)) /\
     (exists q,
        result (get_market_data sym) w2 = Ok (Some q) /\
        q = {| ltp := (10200 / 100)%Q;
               volume := default 0 vol2;
               q_timestamp := wall_clock w1 (clock_reads w1) |} /\
        (ltp q == 102.0)%Q)).
Proof.
  cbv zeta. split.
  - intros w. split.
    + eexists. split.
      * unfold result, exec, get_market_data, bind, get_state. simpl.
        rewrite lookup_insert_eq. reflexivity.
      * simpl. repeat split; reflexivity.
    + eexists. split.
      * unfold result, exec, get_market_data, bind, get_state. simpl.
        rewrite lookup_insert_eq. reflexivity.
      * split; reflexivity.
  - intros w Hu.
    pose proof (on_tick_undisturbed [Tok (Some sym) (Some 10150%Q) vol1] w Hu)
      as Hu1.
    split.
    + eexists. split.
      * unfold result, get_market_data, bind, get_state. simpl.
        rewrite (on_tick_quotes _ w Hu). simpl.
        rewrite lookup_insert_eq. reflexivity.
      * simpl. repeat split; reflexivity.
    + eexists. split.
      * unfold result, get_market_data, bind, get_state. simpl.
        rewrite (on_tick_quotes _ _ Hu1). simpl.
        rewrite lookup_insert_eq. reflexivity.
      * split; reflexivity.
Qed.

(** The example strategy is tame. *)
Lemma example_momentum_tame : tame_module example_momentum.
Proof.
  split.
  - intros f g Hf. injection Hf as <-. constructor.
  - intros f g tick Hf. injection Hf as <-.
    constructor. intros [q|]; [|constructor].
    destruct (truthy (ltp q)); constructor. intros o. constructor.
Qed.

Lemma w_paper_tame : tame_world w_paper.
Proof.
  intros sr Hsr.
  change (Some (runner_of "example_momentum.py" example_momentum) = Some sr)
    in Hsr.
  injection Hsr as <-. exact example_momentum_tame.
Qed.

(** C8 at work: RELIANCE ticks in a running paper session whose strategy,
    the example one, buys on each of them. *)
Lemma tick_update_replaces_quote_witness :
  let t1 := [Tok (Some "RELIANCE") (Some 10150%Q) (Some 10)] in
  let t2 := [Tok (Some "RELIANCE") (Some 10200%Q) None] in
  undisturbed w_paper /\
  let w1 := exec (on_tick t1) w_paper in
  let w2 := exec (on_tick t2) w1 in
  (exists q,
     result (get_market_data "RELIANCE") w1 = Ok (Some q) /\
     (ltp q == 101.5)%Q /\
     volume q = default 0 (Some 10) /\
     q_timestamp q = wall_clock w_paper (clock_reads w_paper)) /\
  (exists q,
     result (get_market_data "RELIANCE") w2 = Ok (Some q) /\
     q = {| ltp := (10200 / 100)%Q;
            volume := default 0 None;
            q_timestamp := wall_clock w1 (clock_reads w1) |} /\
     (ltp q == 102.0)%Q).
Proof.
  assert (Hu : undisturbed w_paper) by (right; exact w_paper_tame).
  split; [exact Hu|].
  exact (proj2 (tick_update_replaces_quote "RELIANCE" (Some 10) None) w_paper Hu).
Defined.

(** ** C10 *)

(** C10, as stated, fails twice.  For [initialize]: [start_trading] has
    set the running flag when it calls [initialize]; the callback raises;
    the handler answers with the error and resets the flag, so the session
    is not running afterwards.  For a raise that is not an [Exception]: a
    strategy whose [on_tick] calls [sys.exit()] is not caught by
    [except Exception]; the raise leaves the feed callback and nothing is
    logged. *)
Lemma callback_exception_not_contained :
  (let w_mid :=
     with_state (set_is_running true) (with_state (set_mode "paper") w_raising) in
   (exists sr,
      strategy (trading_state w_raising) = Some sr /\
      is_running (trading_state w_mid) = true /\
      result (StrategyRunner_initialize sr) w_mid = Exc "watchlist unavailable") /\
   result (start_trading (Some "paper")) w_raising =
     Ok (Error400 "watchlist unavailable") /\
   is_running (trading_state (exec (start_trading (Some "paper")) w_raising)) = false) /\
  (is_running (trading_state w_exiting) = true /\
   strategy (trading_state w_exiting) =
     Some (runner_of "exit_tick.py" exiting_on_tick) /\
   result (on_tick tcs_tick) w_exiting = Exit "SystemExit" /\
   emitted (exec (on_tick tcs_tick) w_exiting) = emitted w_exiting).
Proof.
  split.
  - split; [eexists; repeat split; reflexivity|].
    split; reflexivity.
  - repeat split; reflexivity.
Qed.

(** What [on_tick] does once the loop has stored a well-formed batch and a
    callback is dispatched: the callback runs, the module keeps its
    globals, and the end of the callback decides the rest. *)
Lemma on_tick_dispatched tick w sr f :
  is_running (trading_state w) = true ->
  strategy (trading_state w) = Some sr ->
  m_on_tick (strategy_module_of sr) = Some f ->
  result (store_ticks tick) w = Ok tt ->
  let p := f (globals (strategy_module_of sr)) tick in
  let w1 := exec (store_ticks tick) w in
  on_tick tick w =
  match result (run_prog p) w1 with
  | Ok (g, e) =>
      let w3 :=
        with_state
          (set_strategy
             (Some {| strategy_path := strategy_path sr;
                      strategy_module_of :=
                        set_globals (strategy_module_of sr) g |}))
          (exec (run_prog p) w1) in
      match e with
      | Returned => emit (EvMarketData (market_data (trading_state w3))) w3
      | Raised msg => log_message ("Tick error: " ++ msg) "error" w3
      | Exited msg => (Exit msg, w3)
      end
  | Exc msg => log_message ("Tick error: " ++ msg) "error" (exec (run_prog p) w1)
  | Exit msg => (Exit msg, exec (run_prog p) w1)
  end.
Proof.
  intros Hrun Hs Hf Hst. cbv zeta.
  pose proof (store_ticks_post tick w) as (_ & Hr1 & Hs1).
  rewrite Hrun in Hr1. rewrite Hs in Hs1.
  unfold result, exec in *.
  unfold on_tick, try_except, bind at 1.
  destruct (store_ticks tick w) as [r wa]. simpl in Hst, Hr1, Hs1 |- *.
  subst r. unfold bind at 1, get_state at 1. unfold bind at 1.
  rewrite Hr1, Hs1. unfold StrategyRunner_on_tick. rewrite Hf.
  unfold call_module, bind at 1.
  destruct (run_prog (f (globals (strategy_module_of sr)) tick) wa)
    as [[[g e]|msg|msg] wb]; simpl; try reflexivity.
  destruct e; reflexivity.
Qed.

(** What [start_trading] does from a stopped session whose strategy has an
    [initialize] that ends by raising. *)
Lemma start_trading_initialize_ends data_mode w sr f :
  is_running (trading_state w) = false ->
  strategy (trading_state w) = Some sr ->
  m_initialize (strategy_module_of sr) = Some f ->
  let p := f (globals (strategy_module_of sr)) in
  let w1 := starting data_mode w in
  forall g e,
    result (run_prog p) w1 = Ok (g, e) ->
    e <> Returned ->
    start_trading data_mode w =
    let w3 :=
      with_state
        (set_strategy
           (Some {| strategy_path := strategy_path sr;
                    strategy_module_of :=
                      set_globals (strategy_module_of sr) g |}))
        (exec (run_prog p) w1) in
    match e with
    | Returned => (Ok Success, w3)
    | Raised msg =>
        (do _ <- modify_state (set_is_running false);
         do _ <- log_message ("Start failed: " ++ msg) "error";
         ret (Error400 msg))%host w3
    | Exited msg => (Exit msg, w3)
    end.
Proof.
  intros Hrun Hs Hf. cbv zeta. intros g e Hp He.
  unfold start_trading, bind at 1, modify_state at 1.
  unfold bind at 1, get_state at 1. simpl. rewrite Hs, Hrun.
  unfold try_except, bind at 1, modify_state at 1.
  unfold bind at 1, get_state at 1. simpl. rewrite Hs.
  unfold bind at 1, StrategyRunner_initialize. rewrite Hf.
  unfold call_module, bind at 1.
  unfold result, exec, starting in *.
  destruct (run_prog (f (globals (strategy_module_of sr))) _) as [rb wb].
  simpl in Hp. subst rb. simpl.
  destruct e; [contradiction|reflexivity|reflexivity].
Qed.

(** C10, amended.  An [Exception] raised by [on_tick] in a running session
    is caught by the feed callback: [on_tick] returns normally, the session
    is still running, one [Tick error] log event carrying the message is
    emitted after whatever the callback did before raising, the callback is
    not run again for that batch and no [market_data] event is emitted for
    it.  An [Exception] raised by [initialize] is caught by
    [start_trading]: the route answers with an error carrying the message,
    one [Start failed] log event is emitted, and the session ends not
    running.  A raise that is not an [Exception] ([SystemExit],
    [KeyboardInterrupt]) is caught by neither: it leaves [on_tick], or
    [start_trading], and nothing is logged for it. *)
Theorem callback_exception_is_contained :
  (forall w tick sr f msg,
     is_running (trading_state w) = true ->
     strategy (trading_state w) = Some sr ->
     m_on_tick (strategy_module_of sr) = Some f ->
     result (store_ticks tick) w = Ok tt ->
     let w1 := exec (store_ticks tick) w in
     let p := f (globals (strategy_module_of sr)) tick in
     callback_raises p w1 msg ->
     let w2 := exec (run_prog p) w1 in
     let w' := exec (on_tick tick) w in
     result (on_tick tick) w = Ok tt /\
     is_running (trading_state w') = true /\
     orders (trading_state w') = orders (trading_state w2) /\
     market_data (trading_state w') = market_data (trading_state w2) /\
     emitted w' =
       (emitted w2 ++
        [EvLog (wall_clock w2 (clock_reads w2)) ("Tick error: " ++ msg) "error"])%list) /\
  (forall w data_mode sr f msg,
     is_running (trading_state w) = false ->
     strategy (trading_state w) = Some sr ->
     m_initialize (strategy_module_of sr) = Some f ->
     let w1 :=
       with_state (set_is_running true)
         (with_state (set_mode (default "paper" data_mode)) w) in
     let p := f (globals (strategy_module_of sr)) in
     callback_raises p w1 msg ->
     let w2 := exec (run_prog p) w1 in
     let w' := exec (start_trading data_mode) w in
     result (start_trading data_mode) w = Ok (Error400 msg) /\
     is_running (trading_state w') = false /\
     orders (trading_state w') = orders (trading_state w2) /\
     emitted w' =
       (emitted w2 ++
        [EvLog (wall_clock w2 (clock_reads w2)) ("Start failed: " ++ msg) "error"])%list) /\
  (forall w tick sr f msg,
     is_running (trading_state w) = true ->
     strategy (trading_state w) = Some sr ->
     m_on_tick (strategy_module_of sr) = Some f ->
     result (store_ticks tick) w = Ok tt ->
     let w1 := exec (store_ticks tick) w in
     let p := f (globals (strategy_module_of sr)) tick in
     callback_exits p w1 msg ->
     let w2 := exec (run_prog p) w1 in
     let w' := exec (on_tick tick) w in
     result (on_tick tick) w = Exit msg /\
     orders (trading_state w') = orders (trading_state w2) /\
     market_data (trading_state w') = market_data (trading_state w2) /\
     emitted w' = emitted w2) /\
  (forall w data_mode sr f msg,
     is_running (trading_state w) = false ->
     strategy (trading_state w) = Some sr ->
     m_initialize (strategy_module_of sr) = Some f ->
     let w1 :=
       with_state (set_is_running true)
         (with_state (set_mode (default "paper" data_mode)) w) in
     let p := f (globals (strategy_module_of sr)) in
     callback_exits p w1 msg ->
     let w2 := exec (run_prog p) w1 in
     let w' := exec (start_trading data_mode) w in
     result (start_trading data_mode) w = Exit msg /\
     orders (trading_state w') = orders (trading_state w2) /\
     emitted w' = emitted w2).
Proof.
  split; [|split; [|split]].
  - intros w tick sr f msg Hrun Hs Hf Hst w1 p [g Hp] w2 w'.
    pose proof (store_ticks_post tick w) as (_ & Hr1 & _).
    fold w1 in Hr1. rewrite Hrun in Hr1.
    pose proof (run_prog_post p w1) as (_ & _ & Hr2 & _).
    fold w2 in Hr2. rewrite Hr1 in Hr2.
    pose proof (on_tick_dispatched tick w sr f Hrun Hs Hf Hst) as Heq.
    cbv zeta in Heq. fold w1 p in Heq. rewrite Hp in Heq. fold w2 in Heq.
    unfold w', result, exec. rewrite Heq. simpl.
    repeat split; try reflexivity. exact Hr2.
  - intros w data_mode sr f msg Hrun Hs Hf w1 p [g Hp] w2 w'.
    pose proof (start_trading_initialize_ends data_mode w sr f Hrun Hs Hf
                  g (Raised msg) Hp ltac:(discriminate)) as Heq.
    cbv zeta in Heq. fold w2 in Heq.
    unfold w', result, exec. rewrite Heq. simpl.
    repeat split; reflexivity.
  - intros w tick sr f msg Hrun Hs Hf Hst w1 p [g Hp] w2 w'.
    pose proof (on_tick_dispatched tick w sr f Hrun Hs Hf Hst) as Heq.
    cbv zeta in Heq. fold w1 p in Heq. rewrite Hp in Heq. fold w2 in Heq.
    unfold w', result, exec. rewrite Heq. simpl.
    repeat split; reflexivity.
  - intros w data_mode sr f msg Hrun Hs Hf w1 p [g Hp] w2 w'.
    pose proof (start_trading_initialize_ends data_mode w sr f Hrun Hs Hf
                  g (Exited msg) Hp ltac:(discriminate)) as Heq.
    cbv zeta in Heq. fold w2 in Heq.
    unfold w', result, exec. rewrite Heq. simpl.
    repeat split; reflexivity.
Qed.

(** C10 at work: a strategy that sells and then raises in [on_tick], one
    that raises in [initialize], and one that exits in [on_tick]. *)
Lemma callback_exception_is_contained_witness :
  (let w1 := exec (store_ticks tcs_tick) w_ticking in
   let p := CtxPlaceOrder "TCS" 2 "SELL" "MARKET" None
              (fun _ => Raise tt "division by zero") in
   let w2 := exec (run_prog p) w1 in
   let w' := exec (on_tick tcs_tick) w_ticking in
   (is_running (trading_state w_ticking) = true /\
    strategy (trading_state w_ticking) =
      Some (runner_of "broken_tick.py" raising_on_tick) /\
    result (store_ticks tcs_tick) w_ticking = Ok tt /\
    callback_raises p w1 "division by zero") /\
   result (on_tick tcs_tick) w_ticking = Ok tt /\
   is_running (trading_state w') = true /\
   orders (trading_state w') = orders (trading_state w2) /\
   market_data (trading_state w') = market_data (trading_state w2) /\
   emitted w' =
     (emitted w2 ++
      [EvLog (wall_clock w2 (clock_reads w2))
         ("Tick error: " ++ "division by zero") "error"])%list) /\
  (let w1 :=
     with_state (set_is_running true)
       (with_state (set_mode (default "paper" (Some "paper"))) w_raising) in
   let p : prog unit := Raise tt "watchlist unavailable" in
   let w2 := exec (run_prog p) w1 in
   let w' := exec (start_trading (Some "paper")) w_raising in
   (is_running (trading_state w_raising) = false /\
    strategy (trading_state w_raising) =
      Some (runner_of "broken_init.py" raising_initialize) /\
    callback_raises p w1 "watchlist unavailable") /\
   result (start_trading (Some "paper")) w_raising =
     Ok (Error400 "watchlist unavailable") /\
   is_running (trading_state w') = false /\
   orders (trading_state w') = orders (trading_state w2) /\
   emitted w' =
     (emitted w2 ++
      [EvLog (wall_clock w2 (clock_reads w2))
         ("Start failed: " ++ "watchlist unavailable") "error"])%list) /\
  (let w1 := exec (store_ticks tcs_tick) w_exiting in
   let p : prog unit := RaiseExit tt "SystemExit" in
   let w2 := exec (run_prog p) w1 in
   let w' := exec (on_tick tcs_tick) w_exiting in
   (is_running (trading_state w_exiting) = true /\
    strategy (trading_state w_exiting) =
      Some (runner_of "exit_tick.py" exiting_on_tick) /\
    result (store_ticks tcs_tick) w_exiting = Ok tt /\
    callback_exits p w1 "SystemExit") /\
   result (on_tick tcs_tick) w_exiting = Exit "SystemExit" /\
   orders (trading_state w') = orders (trading_state w2) /\
   market_data (trading_state w') = market_data (trading_state w2) /\
   emitted w' = emitted w2).
Proof.
  destruct callback_exception_is_contained as (Htick & Hinit & Hexit & _).
  split; [|split].
  - assert (Hraise : callback_raises
                       (CtxPlaceOrder "TCS" 2 "SELL" "MARKET" None
                          (fun _ => Raise tt "division by zero"))
                       (exec (store_ticks tcs_tick) w_ticking)
                       "division by zero")
      by (exists tt; reflexivity).
    split; [repeat split; solve [reflexivity | exact Hraise]|].
    exact (Htick w_ticking tcs_tick
             (runner_of "broken_tick.py" raising_on_tick)
             (fun g _ => CtxPlaceOrder "TCS" 2 "SELL" "MARKET" None
                           (fun _ => Raise g "division by zero"))
             "division by zero" eq_refl eq_refl eq_refl eq_refl Hraise).
  - assert (Hraise : callback_raises
                       (Raise tt "watchlist unavailable" : prog unit)
                       (with_state (set_is_running true)
                          (with_state (set_mode (default "paper" (Some "paper")))
                             w_raising))
                       "watchlist unavailable")
      by (exists tt; reflexivity).
    split; [repeat split; solve [reflexivity | exact Hraise]|].
    exact (Hinit w_raising (Some "paper")
             (runner_of "broken_init.py" raising_initialize)
             (fun g => Raise g "watchlist unavailable")
             "watchlist unavailable" eq_refl eq_refl eq_refl Hraise).
  - assert (Hx : callback_exits
                   (RaiseExit tt "SystemExit" : prog unit)
                   (exec (store_ticks tcs_tick) w_exiting) "SystemExit")
      by (exists tt; reflexivity).
    split; [repeat split; solve [reflexivity | exact Hx]|].
    exact (Hexit w_exiting tcs_tick
             (runner_of "exit_tick.py" exiting_on_tick)
             (fun g _ => RaiseExit g "SystemExit")
             "SystemExit" eq_refl eq_refl eq_refl eq_refl Hx).
Defined.

(** ** Frames

    A relation between worlds that is reflexive and transitive and is
    respected by the primitive effects (a clock read, a log event, a
    change of the mode, of the running flag or of the strategy, and a whole
    [place_order] call) is respected by every route and callback built from
    them, as long as the strategies involved are tame. *)

Lemma tame_world_same w w' :
  strategy (trading_state w') = strategy (trading_state w) ->
  tame_world w -> tame_world w'.
Proof. unfold tame_world. intros H Hw. rewrite H. exact Hw. Qed.

Lemma tame_world_loaded w sr :
  tame_module (strategy_module_of sr) ->
  tame_world (with_state (set_strategy (Some sr)) w).
Proof. intros H sr' Hsr'. simpl in Hsr'. injection Hsr' as <-. exact H. Qed.

Section Frame.
Variable R : world -> world -> Prop.
Hypothesis R_refl : forall w, R w w.
Hypothesis R_trans : forall w1 w2 w3, R w1 w2 -> R w2 w3 -> R w1 w3.
Hypothesis R_now : forall w, R w (exec now w).
Hypothesis R_log : forall w t msg lvl, R w (exec (emit (EvLog t msg lvl)) w).
Hypothesis R_mode : forall w v, R w (with_state (set_mode v) w).
Hypothesis R_running : forall w v, R w (with_state (set_is_running v) w).
Hypothesis R_strategy : forall w v, R w (with_state (set_strategy v) w).
Hypothesis R_place :
  forall sym qty sd otype prc w, R w (exec (place_order sym qty sd otype prc) w).

Local Abbreviation framed := (framed R).

Lemma framed_ret {A} (a : A) : framed (ret a).
Proof. intros w Hw. split; [apply R_refl|exact Hw]. Qed.

Lemma framed_raise {A} msg : framed (@raise A msg).
Proof. intros w Hw. split; [apply R_refl|exact Hw]. Qed.

Lemma framed_raise_exit {A} msg : framed (@raise_exit A msg).
Proof. intros w Hw. split; [apply R_refl|exact Hw]. Qed.

Lemma framed_lift_res {A} (r : res A) : framed (lift_res r).
Proof. intros w Hw. split; [apply R_refl|exact Hw]. Qed.

(** The rule for [bind] at one world. *)
Lemma framed_bind_at {A B} (m : M A) (k : A -> M B) w :
  post m w (fun _ w' => R w w' /\ tame_world w') ->
  (forall a, framed (k a)) ->
  post (bind m k) w (fun _ w' => R w w' /\ tame_world w').
Proof.
  intros Hm Hk. apply post_bind.
  eapply post_conseq; [exact Hm|].
  intros [a|e|e] w1 [H1 Hw1]; [|split; assumption|split; assumption].
  eapply post_conseq; [apply Hk; exact Hw1|].
  intros r w2 [H2 Hw2]. split; [eapply R_trans; eassumption|exact Hw2].
Qed.

Lemma framed_bind {A B} (m : M A) (k : A -> M B) :
  framed m -> (forall a, framed (k a)) -> framed (bind m k).
Proof. intros Hm Hk w Hw. apply framed_bind_at; [apply Hm; exact Hw|exact Hk]. Qed.

(** The rule for a read of the state: what follows is run on the state
    of the world it starts from. *)
Lemma framed_read {B} (k : trading_state_t -> M B) :
  (forall w, tame_world w ->
             post (k (trading_state w)) w (fun _ w' => R w w' /\ tame_world w')) ->
  framed (bind get_state k).
Proof. intros Hk w Hw. exact (Hk w Hw). Qed.

Lemma framed_try {A} (body : M A) (h : string -> M A) :
  framed body -> (forall e, framed (h e)) -> framed (try_except body h).
Proof.
  intros Hb Hh w Hw. apply post_try.
  eapply post_conseq; [apply Hb; exact Hw|].
  intros [a|e|e] w1 [H1 Hw1]; [split; assumption| |split; assumption].
  eapply post_conseq; [apply Hh; exact Hw1|].
  intros r w2 [H2 Hw2]. split; [eapply R_trans; eassumption|exact Hw2].
Qed.

Lemma framed_try_all {A} (body : M A) (h : M A) :
  framed body -> framed h -> framed (try_except_all body h).
Proof.
  intros Hb Hh w Hw. apply post_try_all.
  eapply post_conseq; [apply Hb; exact Hw|].
  intros [a|e|e] w1 [H1 Hw1]; [split; assumption| |];
    (eapply post_conseq; [apply Hh; exact Hw1|];
     intros r w2 [H2 Hw2]; split; [eapply R_trans; eassumption|exact Hw2]).
Qed.

Lemma framed_get_world : framed get_world.
Proof. intros w Hw. split; [apply R_refl|exact Hw]. Qed.

Lemma framed_now : framed now.
Proof.
  intros w Hw. split; [apply R_now|].
  apply (tame_world_same w); [reflexivity|exact Hw].
Qed.

Lemma framed_log_message msg lvl : framed (log_message msg lvl).
Proof.
  apply framed_bind; [exact framed_now|].
  intros t w Hw. split; [apply R_log|].
  apply (tame_world_same w); [reflexivity|exact Hw].
Qed.

Lemma framed_set_mode v : framed (modify_state (set_mode v)).
Proof.
  intros w Hw. split; [apply R_mode|].
  apply (tame_world_same w); [reflexivity|exact Hw].
Qed.

Lemma framed_set_is_running v : framed (modify_state (set_is_running v)).
Proof.
  intros w Hw. split; [apply R_running|].
  apply (tame_world_same w); [reflexivity|exact Hw].
Qed.

Lemma framed_load sr :
  tame_module (strategy_module_of sr) ->
  framed (modify_state (set_strategy (Some sr))).
Proof.
  intros Hsr w Hw. split; [apply R_strategy|].
  apply tame_world_loaded. exact Hsr.
Qed.

Lemma framed_place_order sym qty sd otype prc :
  framed (place_order sym qty sd otype prc).
Proof.
  intros w Hw. split; [apply R_place|].
  destruct (place_order_returns sym qty sd otype prc w)
    as (o & w' & logs & Hrun & Hst & _).
  unfold exec. rewrite Hrun. simpl.
  apply (tame_world_same w); [rewrite Hst; reflexivity|exact Hw].
Qed.

Lemma framed_run_prog {mem} (p : prog mem) : tame p -> framed (run_prog p).
Proof.
  induction 1 as [g|g msg|g msg|sym qty sd otype prc k _ IH|sym k _ IH|k _ IH];
    simpl.
  - apply framed_ret.
  - apply framed_ret.
  - apply framed_ret.
  - apply framed_bind; [apply framed_place_order|exact IH].
  - apply framed_bind; [|exact IH].
    apply framed_read. intros w Hw. apply framed_ret. exact Hw.
  - apply framed_read. intros w Hw. apply IH. exact Hw.
Qed.

Lemma framed_call_module self p :
  tame_module (strategy_module_of self) -> tame p ->
  framed (call_module self p).
Proof.
  intros Hself Hp.
  apply framed_bind; [apply framed_run_prog; exact Hp|]. intros [g e].
  apply framed_bind; [apply framed_load; exact Hself|]. intros _.
  destruct e; [apply framed_ret|apply framed_raise|apply framed_raise_exit].
Qed.

Lemma framed_initialize self :
  tame_module (strategy_module_of self) ->
  framed (StrategyRunner_initialize self).
Proof.
  intros Hself. unfold StrategyRunner_initialize.
  destruct (m_initialize _) as [f|] eqn:Hf; [|apply framed_ret].
  apply framed_call_module; [exact Hself|].
  apply (proj1 Hself f _ Hf).
Qed.

Lemma framed_runner_on_tick self tick :
  tame_module (strategy_module_of self) ->
  framed (StrategyRunner_on_tick self tick).
Proof.
  intros Hself. unfold StrategyRunner_on_tick.
  destruct (m_on_tick _) as [f|] eqn:Hf; [|apply framed_ret].
  apply framed_call_module; [exact Hself|].
  apply (proj2 Hself f _ tick Hf).
Qed.

Lemma framed_upload_strategy file :
  tame_op (OpUpload file) -> framed (upload_strategy file).
Proof.
  intros Hfile.
  unfold upload_strategy. destruct file as [f|]; [|apply framed_ret].
  destruct (negb _); [apply framed_ret|].
  intros w Hw. apply post_try. apply post_bind.
  unfold post at 1, lift_res, result, exec. simpl in Hfile |- *.
  destruct (exec_module f) as [md|e|e].
  - apply framed_bind; [|intros _; apply framed_bind;
                           [apply framed_log_message|intros _; apply framed_ret]
                        |exact Hw].
    apply framed_load. apply Hfile. reflexivity.
  - apply framed_bind; [apply framed_log_message|intros _; apply framed_ret
                        |exact Hw].
  - split; [apply R_refl|exact Hw].
Qed.

Lemma framed_start_trading data_mode : framed (start_trading data_mode).
Proof.
  unfold start_trading.
  apply framed_bind; [apply framed_set_mode|]. intros _.
  apply framed_read. intros w Hw.
  destruct (strategy (trading_state w)) as [sr0|]; [|apply framed_ret; exact Hw].
  destruct (is_running (trading_state w)); [apply framed_ret; exact Hw|].
  revert w Hw. apply framed_try.
  - apply framed_bind; [apply framed_set_is_running|]. intros _.
    apply framed_read. intros w Hw.
    apply framed_bind_at.
    + destruct (strategy (trading_state w)) as [sr|] eqn:Hsr.
      * apply framed_initialize; [apply Hw; exact Hsr|exact Hw].
      * apply framed_raise. exact Hw.
    + intros _. apply framed_bind; [apply framed_get_world|]. intros w0.
      apply framed_bind.
      { destruct (ws_client w0); [|apply framed_ret].
        destruct (negb _); [apply framed_lift_res|apply framed_ret]. }
      intros _. apply framed_bind; [apply framed_log_message|]. intros _.
      apply framed_ret.
  - intros e. apply framed_bind; [apply framed_set_is_running|]. intros _.
    apply framed_bind; [apply framed_log_message|]. intros _.
    apply framed_ret.
Qed.

Lemma framed_stop_trading : framed stop_trading.
Proof.
  unfold stop_trading.
  apply framed_bind; [apply framed_set_is_running|]. intros _.
  apply framed_bind; [apply framed_get_world|]. intros w0.
  apply framed_bind.
  { destruct (ws_client w0); [|apply framed_ret].
    apply framed_try_all; [apply framed_lift_res|apply framed_ret]. }
  intros _. apply framed_bind; [apply framed_log_message|]. intros _.
  apply framed_ret.
Qed.

Lemma framed_place i : framed (place i).
Proof. apply framed_place_order. Qed.

Section Ticks.
Hypothesis R_quote : forall w k q, R w (with_state (store_quote k q) w).
Hypothesis R_snapshot : forall w md, R w (exec (emit (EvMarketData md)) w).

Lemma framed_store_ticks tick : framed (store_ticks tick).
Proof.
  induction tick as [|[nm lp vol|] rest IH]; simpl.
  - apply framed_ret.
  - apply framed_bind; [exact framed_now|]. intros t.
    apply framed_bind; [|intros _; exact IH].
    intros w Hw. split; [apply R_quote|].
    apply (tame_world_same w); [reflexivity|exact Hw].
  - apply framed_raise.
Qed.

Lemma framed_on_tick tick : framed (on_tick tick).
Proof.
  unfold on_tick. apply framed_try.
  - apply framed_bind; [apply framed_store_ticks|]. intros _.
    apply framed_read. intros w Hw.
    apply framed_bind_at.
    + destruct (is_running (trading_state w)); [|apply framed_ret; exact Hw].
      destruct (strategy (trading_state w)) as [sr|] eqn:Hsr;
        [|apply framed_ret; exact Hw].
      apply framed_runner_on_tick; [apply Hw; exact Hsr|exact Hw].
    + intros _. apply framed_read. intros w1 Hw1.
      split; [apply R_snapshot|].
      apply (tame_world_same w1); [reflexivity|exact Hw1].
  - intros e. apply framed_log_message.
Qed.

Lemma framed_step o w :
  tame_world w -> tame_op o -> R w (step o w) /\ tame_world (step o w).
Proof.
  intros Hw Ho. destruct o as [file|data_mode| |tick|i]; simpl.
  - apply framed_upload_strategy; assumption.
  - apply framed_start_trading; assumption.
  - apply framed_stop_trading; assumption.
  - apply framed_on_tick; assumption.
  - apply framed_place; assumption.
Qed.

Lemma framed_steps ops w :
  tame_world w -> Forall tame_op ops ->
  R w (steps ops w) /\ tame_world (steps ops w).
Proof.
  intros Hw Hops. revert w Hw.
  induction Hops as [|o ops Ho _ IH]; intros w Hw.
  - split; [apply R_refl|exact Hw].
  - destruct (framed_step o w Hw Ho) as [H1 Hw1].
    destruct (IH _ Hw1) as [H2 Hw2].
    split; [eapply R_trans; eassumption|exact Hw2].
Qed.
End Ticks.

Lemma framed_step_but_tick o w :
  is_tick o = false -> tame_world w -> tame_op o -> R w (step o w).
Proof.
  intros H Hw Ho. destruct o as [file|data_mode| |tick|i]; simpl.
  - apply framed_upload_strategy; assumption.
  - apply framed_start_trading; assumption.
  - apply framed_stop_trading; assumption.
  - discriminate H.
  - apply framed_place; assumption.
Qed.
End Frame.

(** ** The order log and the event stream *)

Lemma order_updates_app (a b : list event) :
  order_updates (a ++ b) = (order_updates a ++ order_updates b)%list.
Proof.
  induction a as [|e a IH]; simpl; [reflexivity|].
  destruct (order_update_of e); simpl; rewrite IH; reflexivity.
Qed.

Lemma grows_refl w : grows w w.
Proof. exists [], []. rewrite !app_nil_r. auto. Qed.

Lemma grows_trans w1 w2 w3 : grows w1 w2 -> grows w2 w3 -> grows w1 w3.
Proof.
  intros (r1 & e1 & Ho1 & He1 & H1) (r2 & e2 & Ho2 & He2 & H2).
  exists (r1 ++ r2)%list, (e1 ++ e2)%list.
  rewrite Ho2, Ho1, He2, He1, order_updates_app, H1, H2, <- !app_assoc. auto.
Qed.

Lemma grows_events w w' evs :
  trading_state w' = trading_state w ->
  emitted w' = (emitted w ++ evs)%list ->
  order_updates evs = [] ->
  grows w w'.
Proof.
  intros Hs He Hu. exists [], evs. rewrite Hs, app_nil_r. auto.
Qed.

Lemma grows_state w f :
  (forall s, orders (f s) = orders s) -> grows w (with_state f w).
Proof.
  intros Hf. exists [], []. simpl. rewrite Hf, !app_nil_r. auto.
Qed.

Lemma no_order_update_in_logs (logs : list event) :
  List.filter is_order_update logs = [] -> order_updates logs = [].
Proof.
  induction logs as [|e logs IH]; simpl; [reflexivity|].
  destruct e; simpl; try exact IH. discriminate.
Qed.

Lemma place_order_grows sym qty sd otype prc w :
  grows w (exec (place_order sym qty sd otype prc) w).
Proof.
  destruct (place_order_returns sym qty sd otype prc w)
    as (o & w' & logs & Hrun & Hst & Hev & Hlogs & _).
  unfold exec. rewrite Hrun. simpl.
  exists [o], (logs ++ [EvOrderUpdate o])%list.
  rewrite Hst, Hev, order_updates_app, (no_order_update_in_logs _ Hlogs).
  auto.
Qed.

Lemma steps_grow ops w :
  tame_world w -> Forall tame_op ops -> grows w (steps ops w).
Proof.
  intros Hw Hops. apply (framed_steps grows); try assumption.
  - exact grows_refl.
  - exact grows_trans.
  - intros w0. apply (grows_events _ _ []); [reflexivity| |reflexivity].
    simpl. rewrite app_nil_r. reflexivity.
  - intros w0 t msg lvl. eapply grows_events; reflexivity.
  - intros w0 v. apply grows_state. reflexivity.
  - intros w0 v. apply grows_state. reflexivity.
  - intros w0 v. apply grows_state. reflexivity.
  - exact place_order_grows.
  - intros w0 k q. apply grows_state. reflexivity.
  - intros w0 md. eapply grows_events; reflexivity.
Qed.

Lemma boot_tame dc avail ws clock : tame_world (boot dc avail ws clock).
Proof. intros sr Hsr. discriminate Hsr. Qed.







(** ** Live orders *)

(** X1.  In live mode with a broker client, when the broker answers with
    an order id the record is [PENDING], carries the broker's id and no
    execution price, is appended to the log, and one success line is
    logged before the [order_update] event. *)
Theorem live_order_pending sym qty sd otype prc (w : world) c repr oid :
  mode (trading_state w) = "live" ->
  dhan_client w = Some c ->
  DHAN_AVAILABLE w = true ->
  dhan_place_order c (dhan_request_of sym qty sd otype prc) =
    DhanResponse repr (OrderId oid) ->
  exists o,
    result (place_order sym qty sd otype prc) w = Ok o /\
    status o = Some PENDING /\
    order_id o = Some oid /\
    executed_price o = None /\
    orders (trading_state (exec (place_order sym qty sd otype prc) w)) =
      (orders (trading_state w) ++ [o])%list /\
    emitted (exec (place_order sym qty sd otype prc) w) =
      (emitted w ++
       [EvLog (wall_clock w (S (clock_reads w))) ("Live order placed: " ++ repr)
          "success";
        EvOrderUpdate o])%list.
Proof.
  intros Hm Hc Ha Hb.
  unfold result, exec, place_order, bind, now, get_world, live_client. simpl.
  rewrite Hm, Hc, Ha. simpl.
  unfold try_except, bind, dhan_call. rewrite Hb. simpl.
  eexists. split; [reflexivity|]. simpl.
  repeat split; try reflexivity.
  rewrite <- app_assoc. reflexivity.
Qed.

(** X1 at work: a purchase through the sample broker. *)
Lemma live_order_pending_witness :
  (mode (trading_state w_broker) = "live" /\
   dhan_client w_broker = Some sample_broker /\
   DHAN_AVAILABLE w_broker = true) /\
  exists o,
    result (place buy_reliance) w_broker = Ok o /\
    status o = Some PENDING /\
    order_id o = Some "552209" /\
    executed_price o = None /\
    orders (trading_state (exec (place buy_reliance) w_broker)) =
      (orders (trading_state w_broker) ++ [o])%list /\
    emitted (exec (place buy_reliance) w_broker) =
      (emitted w_broker ++
       [EvLog (wall_clock w_broker (S (clock_reads w_broker)))
          ("Live order placed: " ++ "{'status': 'success'}") "success";
        EvOrderUpdate o])%list.
Proof.
  split; [repeat split; reflexivity|].
  exact (live_order_pending "RELIANCE" 1 "BUY" "MARKET" None w_broker
           sample_broker "{'status': 'success'}" "552209"
           eq_refl eq_refl eq_refl eq_refl).
Defined.

(** X2.  In live mode with a broker client, when the broker call raises
    or its answer carries no order id, the record is [FAILED] with no order
    id and no execution price; it is still appended to the log, and the
    error message is logged before the [order_update] event. *)
Theorem live_order_failed sym qty sd otype prc (w : world) c msg :
  mode (trading_state w) = "live" ->
  dhan_client w = Some c ->
  DHAN_AVAILABLE w = true ->
  broker_fails c (dhan_request_of sym qty sd otype prc) msg ->
  exists o,
    result (place_order sym qty sd otype prc) w = Ok o /\
    status o = Some FAILED /\
    order_id o = None /\
    executed_price o = None /\
    orders (trading_state (exec (place_order sym qty sd otype prc) w)) =
      (orders (trading_state w) ++ [o])%list /\
    emitted (exec (place_order sym qty sd otype prc) w) =
      (emitted w ++
       [EvLog (wall_clock w (S (clock_reads w))) ("Order failed: " ++ msg) "error";
        EvOrderUpdate o])%list.
Proof.
  intros Hm Hc Ha Hb.
  unfold result, exec, place_order, bind, now, get_world, live_client. simpl.
  rewrite Hm, Hc, Ha. simpl.
  unfold try_except, bind, dhan_call.
  destruct Hb as [Hb|[repr Hb]]; rewrite Hb; simpl;
    (eexists; split; [reflexivity|]; simpl;
     repeat split; try reflexivity;
     rewrite <- app_assoc; reflexivity).
Qed.

(** X2 at work: a sale the sample broker refuses. *)
Lemma live_order_failed_witness :
  (mode (trading_state w_broker) = "live" /\
   dhan_client w_broker = Some sample_broker /\
   DHAN_AVAILABLE w_broker = true /\
   broker_fails sample_broker (dhan_request_of "TCS" 2 "SELL" "LIMIT" (Some 3500%Q))
     "Connection refused") /\
  exists o,
    result (place sell_tcs_limit) w_broker = Ok o /\
    status o = Some FAILED /\
    order_id o = None /\
    executed_price o = None /\
    orders (trading_state (exec (place sell_tcs_limit) w_broker)) =
      (orders (trading_state w_broker) ++ [o])%list /\
    emitted (exec (place sell_tcs_limit) w_broker) =
      (emitted w_broker ++
       [EvLog (wall_clock w_broker (S (clock_reads w_broker)))
          ("Order failed: " ++ "Connection refused") "error";
        EvOrderUpdate o])%list.
Proof.
  assert (Hf : broker_fails sample_broker
                 (dhan_request_of "TCS" 2 "SELL" "LIMIT" (Some 3500%Q))
                 "Connection refused") by (left; reflexivity).
  split; [repeat split; solve [reflexivity|exact Hf]|].
  exact (live_order_failed "TCS" 2 "SELL" "LIMIT" (Some 3500%Q) w_broker
           sample_broker "Connection refused" eq_refl eq_refl eq_refl Hf).
Defined.

(** X3.  Outside live mode [place_order] does not depend on the broker:
    with any other client, or none, it returns the same record and ends in
    the same world. *)
Theorem broker_only_in_live_mode sym qty sd otype prc (w : world) dc avail :
  mode (trading_state w) <> "live" ->
  result (place_order sym qty sd otype prc) (with_broker dc avail w) =
    result (place_order sym qty sd otype prc) w /\
  exec (place_order sym qty sd otype prc) (with_broker dc avail w) =
    with_broker dc avail (exec (place_order sym qty sd otype prc) w).
Proof.
  intros Hm. apply String.eqb_neq in Hm.
  unfold result, exec, place_order, bind, now, get_world, live_client. simpl.
  rewrite Hm.
  destruct (String.eqb (mode (trading_state w)) "paper"); split; reflexivity.
Qed.

(** X3 at work: a paper order with and without a broker. *)
Lemma broker_only_in_live_mode_witness :
  mode (trading_state w_paper) <> "live" /\
  result (place buy_reliance) (with_broker (Some sample_broker) true w_paper) =
    result (place buy_reliance) w_paper /\
  exec (place buy_reliance) (with_broker (Some sample_broker) true w_paper) =
    with_broker (Some sample_broker) true (exec (place buy_reliance) w_paper).
Proof.
  assert (Hm : mode (trading_state w_paper) <> "live") by discriminate.
  split; [exact Hm|].
  exact (broker_only_in_live_mode "RELIANCE" 1 "BUY" "MARKET" None w_paper
           (Some sample_broker) true Hm).
Defined.

(** A well-formed prefix of a batch is stored whole, one clock read per
    element, and the loop goes on with the rest. *)
Lemma store_ticks_prefix good rest w :
  forallb well_formed good = true ->
  result (store_ticks good) w = Ok tt /\
  clock_reads (exec (store_ticks good) w) = (clock_reads w + List.length good)%nat /\
  store_ticks (good ++ rest) w = store_ticks rest (exec (store_ticks good) w).
Proof.
  revert w. induction good as [|[nm lp vol|] good IH]; intros w Hg.
  - simpl. unfold exec. simpl. rewrite Nat.add_0_r. repeat split; reflexivity.
  - simpl in Hg. simpl. unfold result, exec, bind, now, modify_state. simpl.
    match goal with |- context [store_ticks good ?w0] =>
      specialize (IH w0 Hg) end.
    unfold result, exec in IH. simpl in IH.
    destruct IH as (H1 & H2 & H3). rewrite H1, H2, H3.
    repeat split; try reflexivity. lia.
  - discriminate Hg.
Qed.

(** ** Ticks *)

(** X7.  When the session is stopped, or no strategy is loaded, or the
    strategy has no [on_tick], a well-formed batch only updates the quotes:
    no order is placed, and the one event emitted is the [market_data]
    snapshot of the quotes after the batch. *)
Theorem tick_without_dispatch (tick : list token_data) (w : world) :
  no_dispatch w ->
  forallb well_formed tick = true ->
  let w' := exec (on_tick tick) w in
  result (on_tick tick) w = Ok tt /\
  trading_state w' = trading_state (exec (store_ticks tick) w) /\
  orders (trading_state w') = orders (trading_state w) /\
  emitted w' = (emitted w ++ [EvMarketData (market_data (trading_state w'))])%list.
Proof.
  intros Hnd Hwf. cbv zeta.
  destruct (store_ticks_prefix tick [] w Hwf) as (Hres & _ & _).
  destruct (store_ticks_only_quotes tick w)
    as ((_ & Hrun & Hstrat) & Hord & Hem & _).
  assert (Heq : on_tick tick w =
            emit (EvMarketData
                    (market_data (trading_state (exec (store_ticks tick) w))))
              (exec (store_ticks tick) w)).
  { unfold result, exec in *. unfold on_tick, try_except, bind at 1.
    destruct (store_ticks tick w) as [r w1]. simpl in *. subst r.
    unfold bind at 1, get_state at 1.
    assert (Hskip :
      (if is_running (trading_state w1)
       then match strategy (trading_state w1) with
            | Some sr => StrategyRunner_on_tick sr tick
            | None => ret tt
            end
       else ret tt) w1 = (Ok tt, w1)).
    { rewrite Hrun, Hstrat.
      destruct Hnd as [H|[H|(sr & H1 & H2)]].
      - rewrite H. reflexivity.
      - rewrite H. destruct (is_running (trading_state w)); reflexivity.
      - rewrite H1. unfold StrategyRunner_on_tick. rewrite H2.
        destruct (is_running (trading_state w)); reflexivity. }
    unfold bind at 1. rewrite Hskip. reflexivity. }
  set (w1 := exec (store_ticks tick) w) in *.
  unfold result, exec. rewrite Heq. simpl.
  rewrite Hem, Hord. repeat split; reflexivity.
Qed.

(** X7 at work: a tick before the session is started. *)
Lemma tick_without_dispatch_witness :
  (no_dispatch w_loaded /\ forallb well_formed tcs_tick = true) /\
  let w' := exec (on_tick tcs_tick) w_loaded in
  result (on_tick tcs_tick) w_loaded = Ok tt /\
  trading_state w' = trading_state (exec (store_ticks tcs_tick) w_loaded) /\
  orders (trading_state w') = orders (trading_state w_loaded) /\
  emitted w' =
    (emitted w_loaded ++ [EvMarketData (market_data (trading_state w'))])%list.
Proof.
  assert (Hnd : no_dispatch w_loaded) by (left; reflexivity).
  split; [split; [exact Hnd|reflexivity]|].
  exact (tick_without_dispatch tcs_tick w_loaded Hnd eq_refl).
Defined.

(** X8.  A batch with an element that is not a dictionary is cut at that
    element: the quotes before it are stored, those after it are not, the
    strategy is not called, no [market_data] event is emitted, and one
    [Tick error] line is logged; [on_tick] itself returns normally. *)
Theorem malformed_tick_aborts_batch (good rest : list token_data) (w : world) :
  forallb well_formed good = true ->
  let tick := (good ++ TokMalformed :: rest)%list in
  let w' := exec (on_tick tick) w in
  result (on_tick tick) w = Ok tt /\
  trading_state w' = trading_state (exec (store_ticks good) w) /\
  orders (trading_state w') = orders (trading_state w) /\
  exists msg,
    emitted w' =
      (emitted w ++
       [EvLog (wall_clock w (clock_reads w + List.length good))
          ("Tick error: " ++ msg) "error"])%list.
Proof.
  intros Hg. cbv zeta.
  destruct (store_ticks_prefix good (TokMalformed :: rest) w Hg)
    as (_ & Hclock & Happ).
  destruct (store_ticks_only_quotes good w) as (_ & Hord & Hem & Hwall & _).
  cbv zeta in Hord, Hem, Hwall.
  set (w1 := exec (store_ticks good) w) in *.
  assert (Heq : on_tick (good ++ TokMalformed :: rest) w =
            log_message ("Tick error: " ++ "object has no attribute 'get'") "error" w1).
  { unfold on_tick, try_except, bind at 1. rewrite Happ. reflexivity. }
  unfold result, exec. rewrite Heq. simpl.
  rewrite Hem, Hord, Hwall, Hclock. repeat split; try reflexivity.
  eexists. reflexivity.
Qed.

(** X8 at work: a TCS tick, a malformed element, an INFY tick. *)
Lemma malformed_tick_aborts_batch_witness :
  forallb well_formed tcs_tick = true /\
  let tick := (tcs_tick ++ TokMalformed :: [Tok (Some "INFY") (Some 150000%Q) None])%list in
  let w' := exec (on_tick tick) w_paper in
  result (on_tick tick) w_paper = Ok tt /\
  trading_state w' = trading_state (exec (store_ticks tcs_tick) w_paper) /\
  orders (trading_state w') = orders (trading_state w_paper) /\
  exists msg,
    emitted w' =
      (emitted w_paper ++
       [EvLog (wall_clock w_paper (clock_reads w_paper + List.length tcs_tick))
          ("Tick error: " ++ msg) "error"])%list.
Proof.
  split; [reflexivity|].
  exact (malformed_tick_aborts_batch tcs_tick
           [Tok (Some "INFY") (Some 150000%Q) None] w_paper eq_refl).
Defined.

Lemma store_ticks_other_symbols tick sym w :
  (forall t, In t tick -> symbol_of t <> Some sym) ->
  market_data (trading_state (exec (store_ticks tick) w)) !! sym =
  market_data (trading_state w) !! sym.
Proof.
  revert w. induction tick as [|[nm lp vol|] rest IH]; intros w Hne.
  - reflexivity.
  - simpl. unfold exec, bind, now, modify_state. simpl.
    match goal with |- context [store_ticks rest ?w0] =>
      specialize (IH w0) end.
    unfold exec in IH. rewrite IH.
    + simpl. apply lookup_insert_ne.
      intros Heq. apply (Hne (Tok nm lp vol)); [left; reflexivity|].
      simpl. rewrite Heq. reflexivity.
    + intros t Ht. apply Hne. right. exact Ht.
  - reflexivity.
Qed.





(** With the session stopped no batch makes the host place an order. *)
Lemma stopped_tick_places_nothing tick w :
  is_running (trading_state w) = false ->
  orders (trading_state (exec (on_tick tick) w)) = orders (trading_state w) /\
  is_running (trading_state (exec (on_tick tick) w)) = false /\
  strategy (trading_state (exec (on_tick tick) w)) = strategy (trading_state w).
Proof.
  intros Hr.
  destruct (store_ticks_only_quotes tick w)
    as ((_ & Hrun & Hstrat) & Hord & _).
  cbv zeta in Hrun, Hstrat, Hord.
  set (w1 := exec (store_ticks tick) w) in *.
  assert (Heq : trading_state (exec (on_tick tick) w) = trading_state w1).
  { subst w1. unfold exec in *. unfold on_tick, try_except, bind at 1.
    destruct (store_ticks tick w) as [[[]|e|e] wa]; simpl in *.
    - unfold bind at 1, get_state at 1. unfold bind at 1.
      rewrite Hrun, Hr. reflexivity.
    - reflexivity.
    - reflexivity. }
  rewrite Heq. repeat split; congruence.
Qed.

(** X11.  After [stop_trading], any number of batches, well-formed or not,
    place no order: the log stays as it was before the stop, the session
    stays stopped and the strategy stays loaded. *)
Theorem ticks_after_stop_place_no_order (ticks : list (list token_data)) (w : world) :
  let w' := steps (List.map OpTick ticks) (exec stop_trading w) in
  orders (trading_state w') = orders (trading_state w) /\
  is_running (trading_state w') = false /\
  strategy (trading_state w') = strategy (trading_state w).
Proof.
  cbv zeta.
  destruct (stop_trading_post w) as (_ & Hr & _ & Hs & Ho & _).
  rewrite <- Ho, <- Hs. clear Ho Hs.
  generalize dependent (exec stop_trading w). clear w.
  induction ticks as [|tick ticks IH]; intros w Hr.
  - auto.
  - destruct (stopped_tick_places_nothing tick w Hr) as (Ho & Hr' & Hs).
    destruct (IH _ Hr') as (H1 & H2 & H3).
    split; [etransitivity; [exact H1|exact Ho]|].
    split; [exact H2|].
    etransitivity; [exact H3|exact Hs].
Qed.

(** ** Uploads *)

Lemma substring_all (s : string) : substring 0 (String.length s) s = s.
Proof. induction s as [|a s IH]; simpl; [reflexivity|]. rewrite IH. reflexivity. Qed.

Lemma substring_skip (pre suf : string) :
  substring (String.length pre) (String.length suf) (pre ++ suf) = suf.
Proof.
  induction pre as [|a pre IH]; simpl; [apply substring_all|exact IH].
Qed.

Lemma length_append (a b : string) :
  String.length (a ++ b) = (String.length a + String.length b)%nat.
Proof. induction a as [|c a IH]; simpl; [reflexivity|]. rewrite IH. reflexivity. Qed.

Lemma substring_split (s : string) (k : nat) :
  (k <= String.length s)%nat ->
  s = substring 0 k s ++ substring k (String.length s - k) s.
Proof.
  revert k. induction s as [|a s IH]; intros k Hk.
  - destruct k; reflexivity.
  - destruct k as [|k]; simpl.
    + rewrite substring_all. reflexivity.
    + simpl in Hk.
      change (String a s =
              String a (substring 0 k s ++ substring k (String.length s - k) s)).
      f_equal. apply IH. lia.
Qed.

(** [endswith] is the suffix test. *)
Lemma endswith_spec (s suffix : string) :
  endswith s suffix = true <-> exists stem, s = stem ++ suffix.
Proof.
  unfold endswith. split.
  - intros H. apply andb_true_iff in H as [Hle Heq].
    apply Nat.leb_le in Hle. apply String.eqb_eq in Heq.
    exists (substring 0 (String.length s - String.length suffix) s).
    pose proof (substring_split s (String.length s - String.length suffix))
      as Hsplit.
    replace (String.length s - (String.length s - String.length suffix))%nat
      with (String.length suffix) in Hsplit by lia.
    rewrite Heq in Hsplit. apply Hsplit. lia.
  - intros [stem ->]. rewrite length_append.
    apply andb_true_iff. split; [apply Nat.leb_le; lia|].
    replace (String.length stem + String.length suffix - String.length suffix)%nat
      with (String.length stem) by lia.
    rewrite substring_skip. apply String.eqb_refl.
Qed.

(** X12.  [upload_strategy] answers success exactly when a file is given,
    its name ends in [.py], and saving and loading it does not raise; the
    answer carries the file name. *)
Theorem upload_accepts_python_files (file : option uploaded_file) (w : world)
    (name : string) :
  result (upload_strategy file) w = Ok (SuccessFile name) <->
  exists f md stem,
    file = Some f /\ filename f = name /\ name = stem ++ ".py" /\
    exec_module f = Ok md.
Proof.
  unfold result, upload_strategy. split.
  - destruct file as [f|]; [|discriminate].
    destruct (endswith (filename f) ".py") eqn:He; simpl; [|discriminate].
    apply endswith_spec in He as [stem Hstem].
    unfold try_except, bind, lift_res. simpl.
    destruct (exec_module f) as [md|e|e] eqn:Hx; simpl;
      [|discriminate|discriminate].
    intros H. injection H as <-. exists f, md, stem. auto.
  - intros (f & md & stem & -> & Hn & Hs & Hx).
    assert (He : endswith (filename f) ".py" = true).
    { apply endswith_spec. exists stem. congruence. }
    rewrite He. simpl. unfold try_except, bind, lift_res. simpl.
    rewrite Hx. simpl. rewrite Hn. reflexivity.
Qed.

(** X12 at work: the example strategy file. *)
Lemma upload_accepts_python_files_witness :
  (exists f md stem,
     upload_of "example_momentum.py" example_momentum = Some f /\
     filename f = "example_momentum.py" /\
     "example_momentum.py" = stem ++ ".py" /\
     exec_module f = Ok md) /\
  result (upload_strategy (upload_of "example_momentum.py" example_momentum))
    w_boot = Ok (SuccessFile "example_momentum.py").
Proof.
  assert (H : exists f md stem,
            upload_of "example_momentum.py" example_momentum = Some f /\
            filename f = "example_momentum.py" /\
            "example_momentum.py" = stem ++ ".py" /\
            exec_module f = Ok md).
  { eexists _, example_momentum, "example_momentum". repeat split; reflexivity. }
  split; [exact H|].
  exact (proj2 (upload_accepts_python_files
                  (upload_of "example_momentum.py" example_momentum) w_boot
                  "example_momentum.py") H).
Defined.

(** X13.  A rejected upload (no file, a name not ending in [.py], or a file
    that fails to load) leaves [trading_state] as it was; in particular a
    previously loaded strategy stays loaded. *)
Theorem rejected_upload_changes_nothing (file : option uploaded_file) (w : world)
    (msg : string) :
  result (upload_strategy file) w = Ok (Error400 msg) ->
  trading_state (exec (upload_strategy file) w) = trading_state w.
Proof.
  unfold result, exec, upload_strategy.
  destruct file as [f|]; [|reflexivity].
  destruct (negb _); [reflexivity|].
  unfold try_except, bind, lift_res. simpl.
  destruct (exec_module f) as [md|e|e]; simpl;
    [discriminate|reflexivity|discriminate].
Qed.

(** X13 at work: a text file sent to a running session. *)
Lemma rejected_upload_changes_nothing_witness :
  result
    (upload_strategy
       (Some {| filename := "notes.txt"; exec_module := Ok raising_on_tick |}))
    w_paper = Ok (Error400 "Invalid Python file") /\
  trading_state
    (exec
       (upload_strategy
          (Some {| filename := "notes.txt"; exec_module := Ok raising_on_tick |}))
       w_paper) = trading_state w_paper.
Proof.
  split; [reflexivity|].
  exact (rejected_upload_changes_nothing
           (Some {| filename := "notes.txt"; exec_module := Ok raising_on_tick |})
           w_paper "Invalid Python file" eq_refl).
Defined.

(** X14.  A successful upload replaces the strategy by a runner for the
    path [os.path.join('strategies', filename)], also while the session is
    running: the file name under [strategies/] when the name is relative,
    the name itself when it is absolute.  The running flag, the mode, the
    order log and the quotes are unchanged and one success line is
    logged. *)
Theorem upload_replaces_strategy (f : uploaded_file) (md : strategy_module)
    (w : world) :
  result (upload_strategy (Some f)) w = Ok (SuccessFile (filename f)) ->
  exec_module f = Ok md ->
  let w' := exec (upload_strategy (Some f)) w in
  strategy (trading_state w') =
    Some {| strategy_path := os_path_join "strategies" (filename f);
            strategy_module_of := md |} /\
  (String.prefix "/" (filename f) = false ->
   os_path_join "strategies" (filename f) = "strategies/" ++ filename f) /\
  (String.prefix "/" (filename f) = true ->
   os_path_join "strategies" (filename f) = filename f) /\
  is_running (trading_state w') = is_running (trading_state w) /\
  mode (trading_state w') = mode (trading_state w) /\
  orders (trading_state w') = orders (trading_state w) /\
  market_data (trading_state w') = market_data (trading_state w) /\
  emitted w' =
    (emitted w ++
     [EvLog (wall_clock w (clock_reads w)) ("Strategy loaded: " ++ filename f)
        "success"])%list.
Proof.
  unfold result, exec, upload_strategy.
  destruct (negb _); [discriminate|].
  unfold try_except, bind, lift_res. simpl.
  intros Hr Hx. rewrite Hx in *. simpl.
  split; [reflexivity|].
  split; [intros Hp; unfold os_path_join; rewrite Hp; reflexivity|].
  split; [intros Hp; unfold os_path_join; rewrite Hp; reflexivity|].
  repeat split; reflexivity.
Qed.

(** X14 at work: a strategy sent under an absolute name to a running
    session. *)
Lemma upload_replaces_strategy_witness :
  let f := {| filename := "/tmp/broken_tick.py"; exec_module := Ok raising_on_tick |} in
  (result (upload_strategy (Some f)) w_paper = Ok (SuccessFile (filename f)) /\
   exec_module f = Ok raising_on_tick) /\
  let w' := exec (upload_strategy (Some f)) w_paper in
  strategy (trading_state w') =
    Some {| strategy_path := os_path_join "strategies" (filename f);
            strategy_module_of := raising_on_tick |} /\
  (String.prefix "/" (filename f) = false ->
   os_path_join "strategies" (filename f) = "strategies/" ++ filename f) /\
  (String.prefix "/" (filename f) = true ->
   os_path_join "strategies" (filename f) = filename f) /\
  is_running (trading_state w') = is_running (trading_state w_paper) /\
  mode (trading_state w') = mode (trading_state w_paper) /\
  orders (trading_state w') = orders (trading_state w_paper) /\
  market_data (trading_state w') = market_data (trading_state w_paper) /\
  emitted w' =
    (emitted w_paper ++
     [EvLog (wall_clock w_paper (clock_reads w_paper))
        ("Strategy loaded: " ++ filename f) "success"])%list.
Proof.
  split; [split; reflexivity|].
  exact (upload_replaces_strategy
           {| filename := "/tmp/broken_tick.py"; exec_module := Ok raising_on_tick |}
           raising_on_tick w_paper eq_refl eq_refl).
Defined.

(** ** Paper order ids *)

(** [str_int] prints a decimal numeral that parses back. *)
Lemma str_int_parses (n : Z) :
  NilZero.int_of_string (str_int n) = Some (Z.to_int n).
Proof.
  unfold str_int. apply NilZero.isi.
  - destruct n; simpl; try discriminate.
    intros H. injection H as H. exact (Unsigned.to_uint_nonnil _ H).
  - destruct n; simpl; try discriminate.
    intros H. injection H as H. exact (Unsigned.to_uint_nonnil _ H).
Qed.

Lemma str_int_inj (a b : Z) : str_int a = str_int b -> a = b.
Proof.
  intros H. apply DecimalZ.to_int_inj.
  pose proof (str_int_parses a) as Ha. rewrite H, str_int_parses in Ha.
  congruence.
Qed.

Lemma append_inv_head (p a b : string) : p ++ a = p ++ b -> a = b.
Proof.
  induction p as [|c p IH]; intros H; [exact H|].
  change (String c (p ++ a) = String c (p ++ b)) in H.
  injection H as H. apply IH. exact H.
Qed.

(** The id of a paper order: the whole seconds of the second clock read
    of the call. *)
Lemma paper_order_id (i : order_intent) (w : world) :
  mode (trading_state w) = "paper" ->
  exists o,
    result (place i) w = Ok o /\
    order_id o = Some ("PAPER_" ++ str_int (int_of (wall_clock w (S (clock_reads w))))) /\
    mode (trading_state (exec (place i) w)) = "paper" /\
    wall_clock (exec (place i) w) = wall_clock w /\
    clock_reads (exec (place i) w) = (clock_reads w + 3)%nat.
Proof.
  intros Hm. destruct i as [sym qty sd otype prc].
  unfold result, exec, place, place_order, bind, now, get_world, live_client.
  simpl. rewrite Hm. simpl.
  destruct (market_data (trading_state w) !! sym); simpl;
    (eexists; split; [reflexivity|]; simpl;
     repeat split; try reflexivity; try exact Hm; lia).
Qed.

(** X19.  Two consecutive paper orders get the same order id exactly when
    the clock reads at which their ids are made fall in the same whole
    second. *)
Theorem paper_order_ids_equal_iff_same_second (i1 i2 : order_intent) (w : world) :
  mode (trading_state w) = "paper" ->
  exists o1 o2,
    result (place_all [i1; i2]) w = Ok [o1; o2] /\
    (order_id o1 = order_id o2 <->
     int_of (wall_clock w (clock_reads w + 1)) =
     int_of (wall_clock w (clock_reads w + 4))).
Proof.
  intros Hm.
  destruct (paper_order_id i1 w Hm) as (o1 & Hr1 & Hid1 & Hm1 & Hc1 & Hn1).
  destruct (paper_order_id i2 _ Hm1) as (o2 & Hr2 & Hid2 & _).
  exists o1, o2. split.
  - unfold result, exec in *. simpl. unfold bind.
    destruct (place i1 w) as [r1 w1]. simpl in *. subst r1.
    destruct (place i2 w1) as [r2 w2]. simpl in *. subst r2. reflexivity.
  - rewrite Hid1, Hid2, Hc1, Hn1.
    replace (S (clock_reads w)) with (clock_reads w + 1)%nat by lia.
    replace (S (clock_reads w + 3)) with (clock_reads w + 4)%nat by lia.
    split.
    + intros H. injection H as H. apply append_inv_head in H.
      apply str_int_inj. exact H.
    + intros ->. reflexivity.
Qed.

(** X19 at work: two orders on the sample clock. *)
Lemma paper_order_ids_equal_iff_same_second_witness :
  mode (trading_state w_paper) = "paper" /\
  exists o1 o2,
    result (place_all [buy_reliance; buy_infy]) w_paper = Ok [o1; o2] /\
    (order_id o1 = order_id o2 <->
     int_of (wall_clock w_paper (clock_reads w_paper + 1)) =
     int_of (wall_clock w_paper (clock_reads w_paper + 4))).
Proof.
  split; [reflexivity|].
  exact (paper_order_ids_equal_iff_same_second buy_reliance buy_infy w_paper
           eq_refl).
Defined.

(** ** Starting *)

(** X15.  For a request whose body is a JSON object with a string under
    [mode] or no such key, [start_trading] always stores the requested
    mode ([paper] when the request names none) and raises no [Exception].
    Then one of three things happens.  It answers success, only from a
    stopped session with a strategy loaded, and the session is running.
    Or it answers an error and the running flag is what it was before the
    call.  Or a raise that [except Exception] does not catch ([SystemExit],
    [KeyboardInterrupt]) escapes from [initialize] or from the feed's
    [connect]: only from a stopped session with a strategy loaded, and the
    running flag is left set with no answer given. *)
Theorem start_trading_outcomes (data_mode : option string) (w : world) :
  let w' := exec (start_trading data_mode) w in
  mode (trading_state w') = default "paper" data_mode /\
  ((result (start_trading data_mode) w = Ok Success /\
    is_running (trading_state w) = false /\
    is_Some (strategy (trading_state w)) /\
    is_running (trading_state w') = true /\
    is_Some (strategy (trading_state w'))) \/
   (exists msg,
      result (start_trading data_mode) w = Ok (Error400 msg) /\
      is_running (trading_state w') = is_running (trading_state w)) \/
   (exists msg,
      result (start_trading data_mode) w = Exit msg /\
      is_running (trading_state w) = false /\
      is_Some (strategy (trading_state w)) /\
      is_running (trading_state w') = true)).
Proof.
  cbv zeta.
  set (Q := fun (r : res response) (w' : world) =>
              mode (trading_state w') = default "paper" data_mode /\
              ((r = Ok Success /\
                is_running (trading_state w) = false /\
                is_Some (strategy (trading_state w)) /\
                is_running (trading_state w') = true /\
                is_Some (strategy (trading_state w'))) \/
               (exists msg,
                  r = Ok (Error400 msg) /\
                  is_running (trading_state w') =
                  is_running (trading_state w)) \/
               (exists msg,
                  r = Exit msg /\
                  is_running (trading_state w) = false /\
                  is_Some (strategy (trading_state w)) /\
                  is_running (trading_state w') = true))).
  enough (H : post (start_trading data_mode) w Q) by exact H.
  assert (Hquit : forall msg,
            Q (Ok (Error400 msg))
              (with_state (set_mode (default "paper" data_mode)) w)).
  { intros msg. unfold Q. simpl. split; [reflexivity|]. right. left. eauto. }
  assert (Hfail : forall e w3,
            is_running (trading_state w) = false ->
            mode (trading_state w3) = default "paper" data_mode ->
            post (do _ <- modify_state (set_is_running false);
                  do _ <- log_message ("Start failed: " ++ e) "error";
                  ret (Error400 e))%host w3 Q).
  { intros e w3 Hr Hm3. unfold post, Q. simpl. split; [exact Hm3|].
    right. left. eauto. }
  unfold start_trading.
  apply post_bind. unfold post at 1. simpl.
  apply post_bind. unfold post at 1. simpl.
  destruct (strategy (trading_state w)) as [sr|] eqn:Hs;
    [|apply Hquit].
  destruct (is_running (trading_state w)) eqn:Hr; [apply Hquit|].
  apply post_try. apply post_bind. unfold post at 1. simpl.
  apply post_bind. unfold post at 1. simpl. rewrite Hs.
  set (w1 := with_state (set_is_running true)
               (with_state (set_mode (default "paper" data_mode)) w)).
  pose proof (initialize_kept sr w1) as (Hm2 & Hr2 & Hs2 & _).
  set (w2 := exec (StrategyRunner_initialize sr) w1) in *.
  simpl in Hm2, Hr2, Hs2.
  assert (Hsome : is_Some (strategy (trading_state w2))).
  { apply Hs2. rewrite Hs. eauto. }
  assert (Hexit : forall e, Q (Exit e) w2).
  { intros e. unfold Q. split; [exact Hm2|]. right. right.
    exists e. repeat split; eauto. }
  assert (Hok : post (do _ <- log_message
                                ("Trading started in " ++
                                 mode (trading_state w2) ++ " mode")
                                "success";
                      ret Success)%host w2
                  (fun r w' =>
                     match r with
                     | Ok a => Q (Ok a) w'
                     | Exc e =>
                         post (do _ <- modify_state (set_is_running false);
                               do _ <- log_message ("Start failed: " ++ e) "error";
                               ret (Error400 e))%host w' Q
                     | Exit e => Q (Exit e) w'
                     end)).
  { unfold post, Q. simpl. split; [exact Hm2|]. left.
    repeat split; eauto. }
  apply post_bind. unfold post at 1.
  repeat match goal with
         | |- context [exec get_state ?x] => change (exec get_state x) with x
         | |- context [exec (modify_state ?f) ?x] =>
             change (exec (modify_state f) x) with (with_state f x)
         end.
  fold w1. fold w2.
  destruct (result (StrategyRunner_initialize sr) w1) as [[]|e|e];
    [|apply Hfail; [reflexivity|exact Hm2]|apply Hexit].
  apply post_bind. unfold post at 1. simpl.
  apply post_bind.
  destruct (ws_client w2) as [c|]; [|exact Hok].
  destruct (negb _); [|exact Hok].
  unfold post at 1, lift_res, result, exec. simpl.
  destruct (ws_connect c) as [[]|e|e]; simpl;
    [exact Hok|apply Hfail; [reflexivity|exact Hm2]|apply Hexit].
Qed.

(** Once [initialize] has returned, the answer of [start_trading] is
    decided by the feed socket alone. *)
Lemma start_after_initialize data_mode w sr :
  start_reaches_feed data_mode w sr ->
  start_trading data_mode w =
  match
    match ws_client w with
    | Some c =>
        if negb (String.eqb (default "paper" data_mode) "backtest")
        then ws_connect c else Ok tt
    | None => Ok tt
    end
  with
  | Ok _ =>
      (do _ <- log_message
                 ("Trading started in " ++ default "paper" data_mode ++ " mode")
                 "success";
       ret Success)%host
        (exec (StrategyRunner_initialize sr) (starting data_mode w))
  | Exc e =>
      (do _ <- modify_state (set_is_running false);
       do _ <- log_message ("Start failed: " ++ e) "error";
       ret (Error400 e))%host
        (exec (StrategyRunner_initialize sr) (starting data_mode w))
  | Exit e =>
      (Exit e, exec (StrategyRunner_initialize sr) (starting data_mode w))
  end.
Proof.
  intros (Hs & Hr & Hi).
  pose proof (initialize_kept sr (starting data_mode w))
    as (Hm2 & _ & _ & _ & _ & Hws & _).
  simpl in Hm2, Hws.
  unfold start_trading, bind at 1, modify_state at 1.
  unfold bind at 1, get_state at 1. simpl. rewrite Hs, Hr.
  unfold try_except, bind at 1, modify_state at 1.
  unfold bind at 1, get_state at 1. simpl. rewrite Hs.
  unfold bind at 1. fold (starting data_mode w).
  unfold result, exec in *.
  destruct (StrategyRunner_initialize sr (starting data_mode w)) as [r w2].
  simpl in *. subst r.
  unfold bind at 1, get_world at 1. unfold bind at 1.
  rewrite Hws, Hm2.
  destruct (ws_client w) as [c|]; [|reflexivity].
  destruct (negb _); [|reflexivity].
  unfold lift_res. destruct (ws_connect c) as [[]|e|e]; reflexivity.
Qed.

(** X16.  In backtest mode the feed socket is never connected: once
    [initialize] has returned, the start succeeds whatever the socket would
    do. *)
Theorem backtest_start_skips_feed (w : world) (sr : StrategyRunner) :
  start_reaches_feed (Some "backtest") w sr ->
  result (start_trading (Some "backtest")) w = Ok Success /\
  is_running (trading_state (exec (start_trading (Some "backtest")) w)) = true /\
  mode (trading_state (exec (start_trading (Some "backtest")) w)) = "backtest".
Proof.
  intros H.
  pose proof (initialize_kept sr (starting (Some "backtest") w))
    as (Hm2 & Hr2 & _).
  simpl in Hm2, Hr2.
  unfold result, exec. rewrite (start_after_initialize _ _ _ H). simpl.
  destruct (ws_client w); simpl; auto.
Qed.

(** X16 at work: a backtest start over a dead feed. *)
Lemma backtest_start_skips_feed_witness :
  (start_reaches_feed (Some "backtest") w_dead_feed
     (runner_of "example_momentum.py" example_momentum) /\
   ws_client w_dead_feed = Some dead_feed) /\
  result (start_trading (Some "backtest")) w_dead_feed = Ok Success /\
  is_running (trading_state (exec (start_trading (Some "backtest")) w_dead_feed)) = true /\
  mode (trading_state (exec (start_trading (Some "backtest")) w_dead_feed)) = "backtest".
Proof.
  assert (H : start_reaches_feed (Some "backtest") w_dead_feed
                (runner_of "example_momentum.py" example_momentum))
    by (repeat split; reflexivity).
  split; [split; [exact H|reflexivity]|].
  exact (backtest_start_skips_feed w_dead_feed
           (runner_of "example_momentum.py" example_momentum) H).
Defined.

(** X17.  In any other mode, when the feed socket fails to connect the
    start fails with the socket's message, the running flag is reset and
    one [Start failed] line is logged. *)
Theorem feed_failure_fails_start (data_mode : option string) (w : world)
    (sr : StrategyRunner) (c : WsClient) (msg : string) :
  start_reaches_feed data_mode w sr ->
  default "paper" data_mode <> "backtest" ->
  ws_client w = Some c ->
  ws_connect c = Exc msg ->
  let w2 := exec (StrategyRunner_initialize sr) (starting data_mode w) in
  let w' := exec (start_trading data_mode) w in
  result (start_trading data_mode) w = Ok (Error400 msg) /\
  is_running (trading_state w') = false /\
  emitted w' =
    (emitted w2 ++
     [EvLog (wall_clock w2 (clock_reads w2)) ("Start failed: " ++ msg) "error"])%list.
Proof.
  intros H Hm Hc Hx. cbv zeta.
  apply String.eqb_neq in Hm.
  pose proof (start_after_initialize _ _ _ H) as Heq.
  rewrite Hc, Hm, Hx in Heq. simpl in Heq.
  set (w2 := exec (StrategyRunner_initialize sr) (starting data_mode w)) in *.
  unfold result, exec. rewrite Heq. simpl. repeat split; reflexivity.
Qed.

(** X17 at work: a paper start over a dead feed. *)
Lemma feed_failure_fails_start_witness :
  (start_reaches_feed (Some "paper") w_dead_feed
     (runner_of "example_momentum.py" example_momentum) /\
   default "paper" (Some "paper") <> "backtest" /\
   ws_client w_dead_feed = Some dead_feed /\
   ws_connect dead_feed = Exc "Handshake status 401") /\
  let w2 :=
    exec (StrategyRunner_initialize
            (runner_of "example_momentum.py" example_momentum))
      (starting (Some "paper") w_dead_feed) in
  let w' := exec (start_trading (Some "paper")) w_dead_feed in
  result (start_trading (Some "paper")) w_dead_feed =
    Ok (Error400 "Handshake status 401") /\
  is_running (trading_state w') = false /\
  emitted w' =
    (emitted w2 ++
     [EvLog (wall_clock w2 (clock_reads w2))
        ("Start failed: " ++ "Handshake status 401") "error"])%list.
Proof.
  assert (H : start_reaches_feed (Some "paper") w_dead_feed
                (runner_of "example_momentum.py" example_momentum))
    by (repeat split; reflexivity).
  assert (Hm : default "paper" (Some "paper") <> "backtest") by discriminate.
  split; [repeat split; solve [reflexivity|exact Hm|apply H]|].
  exact (feed_failure_fails_start (Some "paper") w_dead_feed
           (runner_of "example_momentum.py" example_momentum)
           dead_feed "Handshake status 401" H Hm eq_refl eq_refl).
Defined.

(** What one [on_tick] of the example strategy does to the world. *)
Lemma example_momentum_on_tick (path : string) (tick : list token_data) (w : world) :
  let sr := {| strategy_path := path; strategy_module_of := example_momentum |} in
  StrategyRunner_on_tick sr tick w =
  (Ok tt,
   with_state (set_strategy (Some sr))
     match market_data (trading_state w) !! "RELIANCE" with
     | Some q => if truthy (ltp q) then exec (place buy_reliance) w else w
     | None => w
     end).
Proof.
  cbv zeta. unfold StrategyRunner_on_tick, call_module. simpl.
  unfold bind at 1. simpl. unfold bind at 1, get_market_data.
  unfold bind at 1, get_state. simpl.
  destruct (market_data (trading_state w) !! "RELIANCE") as [q|]; simpl;
    [|reflexivity].
  destruct (truthy (ltp q)); simpl; [|reflexivity].
  destruct (place_order_returns "RELIANCE" 1 "BUY" "MARKET" None w)
    as (o & wp & logs & Hrun & _).
  unfold bind, exec, place, buy_reliance. simpl. rewrite Hrun. reflexivity.
Qed.

(** X18.  [strategies/example_momentum.py] in a running session: on every
    well-formed batch it places one order, the market purchase of one
    RELIANCE, when a non-zero [ltp] is stored for RELIANCE after the batch,
    and none otherwise. *)
Theorem example_momentum_buys_on_quote (tick : list token_data) (w : world)
    (path : string) :
  is_running (trading_state w) = true ->
  strategy (trading_state w) =
    Some {| strategy_path := path; strategy_module_of := example_momentum |} ->
  forallb well_formed tick = true ->
  let w1 := exec (store_ticks tick) w in
  let w' := exec (on_tick tick) w in
  result (on_tick tick) w = Ok tt /\
  match market_data (trading_state w1) !! "RELIANCE" with
  | Some q =>
      if truthy (ltp q) then
        exists o,
          result (place buy_reliance) w1 = Ok o /\
          orders (trading_state w') = (orders (trading_state w) ++ [o])%list
      else orders (trading_state w') = orders (trading_state w)
  | None => orders (trading_state w') = orders (trading_state w)
  end.
Proof.
  intros Hr Hs Hwf. cbv zeta.
  destruct (store_ticks_prefix tick [] w Hwf) as (Hres & _ & _).
  destruct (store_ticks_only_quotes tick w)
    as ((_ & Hrun & Hstrat) & Hord & _).
  cbv zeta in Hrun, Hstrat, Hord.
  set (w1 := exec (store_ticks tick) w) in *.
  rewrite Hr in Hrun. rewrite Hs in Hstrat.
  assert (Heq : on_tick tick w =
    try_except
      (do _ <- StrategyRunner_on_tick
                 {| strategy_path := path; strategy_module_of := example_momentum |}
                 tick;
       do s' <- get_state;
       emit (EvMarketData (market_data s')))%host
      (fun e => log_message ("Tick error: " ++ e) "error") w1).
  { subst w1. unfold result, exec in *. unfold on_tick, try_except, bind at 1.
    destruct (store_ticks tick w) as [r wa]. simpl in *. subst r.
    unfold bind at 1, get_state at 1. rewrite Hrun, Hstrat. reflexivity. }
  assert (Heq' : on_tick tick w =
    (do s' <- get_state; emit (EvMarketData (market_data s')))%host
      (with_state
         (set_strategy
            (Some {| strategy_path := path; strategy_module_of := example_momentum |}))
         match market_data (trading_state w1) !! "RELIANCE" with
         | Some q => if truthy (ltp q) then exec (place buy_reliance) w1 else w1
         | None => w1
         end)).
  { rewrite Heq. unfold try_except, bind at 1.
    rewrite example_momentum_on_tick. reflexivity. }
  clear Heq. unfold result, exec. rewrite Heq'. simpl.
  split; [reflexivity|].
  destruct (market_data (trading_state w1) !! "RELIANCE") as [q|];
    [|exact Hord].
  destruct (truthy (ltp q)); [|exact Hord].
  destruct (place_order_returns "RELIANCE" 1 "BUY" "MARKET" None w1)
    as (o & wp & logs & Hrun' & Hst & _).
  exists o. unfold result, exec, place, buy_reliance. simpl.
  rewrite Hrun'. simpl. split; [reflexivity|].
  rewrite Hst. simpl. rewrite Hord. reflexivity.
Qed.

(** X18 at work: a TCS tick while RELIANCE is quoted at 250. *)
Lemma example_momentum_buys_on_quote_witness :
  (is_running (trading_state w_paper) = true /\
   strategy (trading_state w_paper) =
     Some {| strategy_path := "strategies/example_momentum.py";
             strategy_module_of := example_momentum |} /\
   forallb well_formed tcs_tick = true) /\
  let w1 := exec (store_ticks tcs_tick) w_paper in
  let w' := exec (on_tick tcs_tick) w_paper in
  result (on_tick tcs_tick) w_paper = Ok tt /\
  match market_data (trading_state w1) !! "RELIANCE" with
  | Some q =>
      if truthy (ltp q) then
        exists o,
          result (place buy_reliance) w1 = Ok o /\
          orders (trading_state w') = (orders (trading_state w_paper) ++ [o])%list
      else orders (trading_state w') = orders (trading_state w_paper)
  | None => orders (trading_state w') = orders (trading_state w_paper)
  end.
Proof.
  split; [repeat split; reflexivity|].
  exact (example_momentum_buys_on_quote tcs_tick w_paper
           "strategies/example_momentum.py" eq_refl eq_refl eq_refl).
Defined.
